(** * Bazaar: column descriptors, class configuration and the data convertor

    A shallow embedding of [bazaar/conf.py] (classes [Column] and
    [Persistence]) and of [bazaar/motor.py] (classes [Convertor] and
    [Motor]), followed by the properties established about them.

    - Python objects are records.  A name that may be [None] is an
      [option string]; class objects are referred to by name.
    - Mappings that are only looked up ([defaults], instance dictionaries,
      rows) are [gmap]s.  The [columns] mapping, whose enumeration order
      reaches the generated SQL, is an association list in enumeration
      order.
    - Code that raises returns a [result].  Code that talks to the database
      runs in a state and error monad over the store, which holds the
      database, the motor, the heap of application objects and the log of
      the calls made on the DB-API module.
    - Generators are state machines stepped by their [next].
    - Calls to [log.debug] and [log.info] are left out; assertions are
      enabled.  The constructor of application classes, which
      [Convertor.getObjects] calls and bazaar.core defines, is a
      parameter. *)

From Stdlib Require Import ZArith.
From stdpp Require Import base option list strings gmap.

Local Open Scope string_scope.
Local Open Scope list_scope.
Local Set Warnings "-register-all".

(** ** Python values, names and exceptions *)

(** A name is a Python string or [None]. *)
Abbreviation name := (option string) (only parsing).

(** Class objects are referred to by their class name. *)
Abbreviation cls_ref := string (only parsing).

(** Heap addresses of application objects. *)
Abbreviation addr := nat (only parsing).

Inductive Value :=
| VNone
| VBool (b : bool)
| VInt (z : Z)
| VStr (s : string)
| VRef (a : addr)
| VOpaque.

Global Instance Value_eq_dec : EqDecision Value.
Proof. solve_decision. Defined.

(** [x is None] *)
Definition is_None_value (v : Value) : bool :=
  match v with VNone => true | _ => false end.

(** The exceptions the code can raise, and the two the specification names
    for situations where the code raises something else. *)
Inductive exn :=
| NameError (global : string)
| AttributeError
| KeyError
| TypeError
| IndexError
| AssertionError
| ColumnMappingError (msg : string)
| RelationMappingError (msg : string)
| AssociationError
| ConnectionError
| DatabaseError (code : nat).

Global Instance exn_eq_dec : EqDecision exn.
Proof. solve_decision. Defined.

Inductive result (A : Type) :=
| Ok (a : A)
| Raise (e : exn).
Arguments Ok {A} a.
Arguments Raise {A} e.

Definition is_Ok {A} (r : result A) : bool :=
  match r with Ok _ => true | Raise _ => false end.

(** Truth value of a name: [None] and the empty string are false. *)
Definition truthy (n : name) : bool :=
  match n with
  | None => false
  | Some s => negb (bool_decide (s = EmptyString))
  end.

(** ['%s' % n] *)
Definition fmt (n : name) : string :=
  match n with
  | None => "None"
  | Some s => s
  end.

(** [sep.join(l)] *)
Fixpoint join (sep : string) (l : list string) : string :=
  match l with
  | [] => EmptyString
  | [x] => x
  | x :: l' => x +:+ sep +:+ join sep l'
  end.

(** ** Mappings whose enumeration order matters

    [d] lists the items of the mapping in the order the mapping enumerates
    them.  Assignment to a key already present replaces the value in
    place.  Where assignment and [update] put a new key in the enumeration
    is not fixed by the sources: here it goes to the end, and no property
    below concludes anything about the order of a mapping that has been
    assigned to or updated.  The properties about order take the mapping
    as it is enumerated. *)
Module odict.
Section defs.
Context {K V : Type} `{EqDecision K}.

Fixpoint get (d : list (K * V)) (k : K) : option V :=
  match d with
  | [] => None
  | (k', v) :: d' => if decide (k' = k) then Some v else get d' k
  end.

(** [k in d] *)
Definition mem (d : list (K * V)) (k : K) : bool :=
  match get d k with Some _ => true | None => false end.

(** [d[k] = v] *)
Fixpoint set (d : list (K * V)) (k : K) (v : V) : list (K * V) :=
  match d with
  | [] => [(k, v)]
  | (k', v') :: d' =>
      if decide (k' = k) then (k', v) :: d' else (k', v') :: set d' k v
  end.

(** [d.update(d2)] *)
Definition update (d d2 : list (K * V)) : list (K * V) :=
  fold_left (fun acc kv => set acc kv.1 kv.2) d2 d.

Definition keys (d : list (K * V)) : list K := d.*1.

(** [d.values()] *)
Definition values (d : list (K * V)) : list V := d.*2.
End defs.
End odict.

(** ** conf.py: class [Column] *)

Inductive CacheClass := FullObject | FullAssociation.

Global Instance CacheClass_eq_dec : EqDecision CacheClass.
Proof. solve_decision. Defined.

(** Modelled from the spec: the association object bound to a descriptor,
    whose class (in bazaar.assoc) is not among the sources.  The statements
    of a many-to-many descriptor are keyed by the identity of its
    association; motor.py reads of such an object its [col], the descriptor
    it was made for, and of that descriptor the class [vcls] it
    references. *)
Record Association := mkAssociation {
  asc_id : nat;
  asc_col_vcls : option cls_ref
}.

Global Instance Association_eq_dec : EqDecision Association.
Proof. solve_decision. Defined.

Module Column.

Record t := mk {
  attr : name;
  col : name;
  vcls : option cls_ref;
  link : name;
  vcol : name;
  vattr : name;
  association : option Association;
  update : bool;
  cache : option CacheClass
}.

(** [Column.__init__(attr, col = None)] *)
Definition init (attr0 : name) (col0 : name) : t :=
  {| attr := attr0;
     col := match col0 with None => attr0 | Some _ => col0 end;
     vcls := None;
     link := None;
     vcol := None;
     vattr := None;
     association := None;
     update := true;
     cache := None |}.

Definition set_vcls (c : t) (v : option cls_ref) : t :=
  mk (attr c) (col c) v (link c) (vcol c) (vattr c) (association c) (update c) (cache c).
Definition set_link (c : t) (v : name) : t :=
  mk (attr c) (col c) (vcls c) v (vcol c) (vattr c) (association c) (update c) (cache c).
Definition set_vcol (c : t) (v : name) : t :=
  mk (attr c) (col c) (vcls c) (link c) v (vattr c) (association c) (update c) (cache c).
Definition set_vattr (c : t) (v : name) : t :=
  mk (attr c) (col c) (vcls c) (link c) (vcol c) v (association c) (update c) (cache c).
Definition set_association (c : t) (v : option Association) : t :=
  mk (attr c) (col c) (vcls c) (link c) (vcol c) (vattr c) v (update c) (cache c).
Definition set_cache (c : t) (v : option CacheClass) : t :=
  mk (attr c) (col c) (vcls c) (link c) (vcol c) (vattr c) (association c) (update c) v.

(** [x is not None] *)
Definition is_set {A} (x : option A) : bool :=
  match x with Some _ => true | None => false end.

Definition is_one_to_one (self : t) : bool :=
  is_set (vcls self) && negb (is_set (link self)) && negb (is_set (vcol self)).

Definition is_one_to_many (self : t) : bool :=
  is_set (vcls self) && negb (is_set (link self)) && is_set (vcol self)
  && is_set (vattr self).

Definition is_many_to_many (self : t) : bool :=
  is_set (vcls self) && is_set (col self) && is_set (link self)
  && is_set (vcol self).

Definition is_bidir (self : t) : bool :=
  is_set (vcls self) && is_set (vattr self).

Definition is_many (self : t) : bool :=
  is_one_to_many self || is_many_to_many self.

End Column.

Global Instance Column_eq_dec : EqDecision Column.t.
Proof. solve_decision. Defined.

(** ** conf.py: metaclass [Persistence]

    A class object is a value holding the class attributes the metaclass
    manages and the tree of its base classes as they are when the class is
    inspected.  [is_persistence c] is [isinstance(c, Persistence)].
    [has_defaults c] is [hasattr(c, 'defaults')], and [defaults c] is what
    [c.defaults] then gives: every class the metaclass makes has the
    attribute, another class has it when it or one of its bases defines
    it. *)
Module Persistence.

Inductive t := mk {
  name_ : string;
  is_persistence : bool;
  bases : list t;
  relation : name;
  sequencer : name;
  columns : list (name * Column.t);
  cache : CacheClass;
  defaults : gmap name Value;
  update : option bool;
  key : Value;
  has_defaults : bool
}.

Definition set_columns (c : t) (v : list (name * Column.t)) : t :=
  mk (name_ c) (is_persistence c) (bases c) (relation c) (sequencer c) v
     (cache c) (defaults c) (update c) (key c) (has_defaults c).
Definition set_defaults (c : t) (v : gmap name Value) : t :=
  mk (name_ c) (is_persistence c) (bases c) (relation c) (sequencer c)
     (columns c) (cache c) v (update c) (key c) (has_defaults c).
Definition set_update (c : t) (v : option bool) : t :=
  mk (name_ c) (is_persistence c) (bases c) (relation c) (sequencer c)
     (columns c) (cache c) (defaults c) v (key c) (has_defaults c).

(** The optional entries of the [data] argument of [__new__]. *)
Record data := mkData {
  d_relation : option name;
  d_sequencer : option name;
  d_columns : option (list (name * Column.t));
  d_cache : option CacheClass;
  d_defaults : option (gmap name Value)
}.

Definition no_data : data := mkData None None None None None.

(** [Persistence.__new__(name, bases, data, relation, sequencer)];
    [modname] only sets [__module__]. *)
Definition new (name0 : string) (bases0 : list t) (data0 : data)
    (relation0 sequencer0 : name) : result t :=
  let relation1 := match relation0 with None => Some name0 | Some _ => relation0 end in
  let data_relation := default relation1 (d_relation data0) in
  let sequencer1 :=
    match sequencer0 with
    | None => Some (fmt data_relation +:+ "_seq")
    | Some _ => sequencer0
    end in
  let data_sequencer := default sequencer1 (d_sequencer data0) in
  let data_columns := default [] (d_columns data0) in
  let data_cache := default FullObject (d_cache data0) in
  let data_defaults := default ∅ (d_defaults data0) in
  let data_defaults :=
    fold_left (fun acc c => if has_defaults c then defaults c ∪ acc else acc)
              bases0 data_defaults in
  let c := mk name0 true bases0 data_relation data_sequencer data_columns
              data_cache data_defaults None VNone true in
  if negb (truthy (relation c))
  then Raise (RelationMappingError "wrong relation name")
  else Ok c.

(** [cls.addColumn(attr, col, vcls, link, vcol, vattr, update)]: the
    outcome and the class object after the call. *)
Definition addColumn (self : t) (attr : name) (col : name)
    (vcls : option cls_ref) (link vcol vattr : name) (update0 : bool)
    : result unit * t :=
  let col := Column.init attr col in
  let col := Column.set_vcls col vcls in
  let col := Column.set_link col link in
  let col := Column.set_vcol col vcol in
  let col := Column.set_vattr col vattr in
  let self := set_update self (Some update0) in
  let col := Column.set_cache col None in
  let self := set_defaults self (<[attr := VNone]> (defaults self)) in
  let self :=
    if Column.is_one_to_one col && negb (bool_decide (Column.attr col = Column.col col))
    then set_defaults self (<[Column.col col := VNone]> (defaults self))
    else self in
  let col :=
    if Column.is_many col then Column.set_cache col (Some FullAssociation)
    else col in
  if negb (truthy attr)
  then (Raise (NameError "ColumnMappingError"), self)
  else if odict.mem (columns self) attr
  then (Raise (ColumnMappingError "column is defined"), self)
  else (Ok (), set_columns self (odict.set (columns self) (Column.attr col) col)).

(** [cls.getColumns()] *)
Fixpoint getColumns (self : t) : list (name * Column.t) :=
  let cols :=
    fold_left
      (fun cols cls =>
         if is_persistence cls then odict.update cols (getColumns cls)
         else cols)
      (bases self) [] in
  odict.update cols (columns self).

End Persistence.

(** ** The store: database, motor, application objects *)

(** An application object: the attributes found on its class, and its
    instance dictionary [__dict__]. *)
Record Obj := mkObj {
  obj_class : gmap name Value;
  obj_dict : gmap name Value
}.

(** Parameters handed to [cursor.execute]. *)
Inductive Params :=
| PNone
| PDict (d : gmap name Value)
| PTuple (l : list Value).

(** Calls made on the DB-API module, in the order they are made. *)
Inductive Event :=
| EvConnect (dsn : string)
| EvClose
| EvCursor
| EvExecute (query : string) (p : Params)
| EvExecuteMany (query : string) (ps : list (list Value))
| EvFetchone
| EvCommit
| EvRollback.

(** The Python DB-API module handed to [Motor]: every call acts on the
    state [W] of the database and its connections, and may raise. *)
Record Driver (W : Type) := mkDriver {
  connect : string -> W -> result nat * W;
  close : nat -> W -> result unit * W;
  cursor : nat -> W -> result nat * W;
  execute : nat -> string -> Params -> W -> result unit * W;
  executemany : nat -> string -> list (list Value) -> W -> result unit * W;
  fetchone : nat -> W -> result (option (list Value)) * W;
  commit : nat -> W -> result unit * W;
  rollback : nat -> W -> result unit * W
}.
Arguments connect {W}.
Arguments close {W}.
Arguments cursor {W}.
Arguments execute {W}.
Arguments executemany {W}.
Arguments fetchone {W}.
Arguments commit {W}.
Arguments rollback {W}.

Record MotorObj (W : Type) := mkMotor {
  db_module : Driver W;
  db_conn : option nat
}.
Arguments mkMotor {W}.
Arguments db_module {W}.
Arguments db_conn {W}.

Record Store (W : Type) := mkStore {
  world : W;
  motor : MotorObj W;
  heap : gmap addr Obj;
  trace : list Event
}.
Arguments mkStore {W}.
Arguments world {W}.
Arguments motor {W}.
Arguments heap {W}.
Arguments trace {W}.

(** Computations over the store that may raise. *)
Definition M (W A : Type) : Type := Store W -> result A * Store W.

Definition ret {W A} (a : A) : M W A := fun s => (Ok a, s).

Definition raise {W A} (e : exn) : M W A := fun s => (Raise e, s).

Definition bind {W A B} (m : M W A) (k : A -> M W B) : M W B :=
  fun s =>
    match m s with
    | (Ok a, s') => k a s'
    | (Raise e, s') => (Raise e, s')
    end.

Declare Scope motor_scope.
Delimit Scope motor_scope with motor.
Notation "x <- m ;; k" := (bind m (fun x => k))
  (at level 100, m at next level, right associativity) : motor_scope.
Notation "m ;;; k" := (bind m (fun _ => k))
  (at level 100, right associativity) : motor_scope.

Definition lift {W A} (r : result A) : M W A := fun s => (r, s).

(** A call on the DB-API module: logged, then run on the database. *)
Definition call {W A} (ev : Event)
    (f : Driver W -> W -> result A * W) : M W A :=
  fun s =>
    let '(r, w) := f (db_module (motor s)) (world s) in
    (r, mkStore w (motor s) (heap s) (trace s ++ [ev])).

Definition set_db_conn {W} (c : option nat) : M W unit :=
  fun s => (Ok (), mkStore (world s) (mkMotor (db_module (motor s)) c) (heap s) (trace s)).

(** [self.db_conn.<method>]: attribute access on [None] raises. *)
Definition the_db_conn {W} : M W nat :=
  fun s =>
    match db_conn (motor s) with
    | None => (Raise AttributeError, s)
    | Some c => (Ok c, s)
    end.

(** [getattr(obj, n)] for an object of the heap: the instance dictionary
    first, then the class. *)
Definition getattr (h : gmap addr Obj) (obj : addr) (n : name) : result Value :=
  match n with
  | None => Raise TypeError
  | Some _ =>
      match h !! obj with
      | None => Raise AttributeError
      | Some o =>
          match obj_dict o !! n with
          | Some v => Ok v
          | None =>
              match obj_class o !! n with
              | Some v => Ok v
              | None => Raise AttributeError
              end
          end
      end
  end.

(** [v.__key__] for a value: only application objects carry a key. *)
Definition key_of (h : gmap addr Obj) (v : Value) : result Value :=
  match v with
  | VRef a => getattr h a (Some "__key__")
  | _ => Raise AttributeError
  end.

(** [obj.n = v] *)
Definition setattr {W} (obj : addr) (n : name) (v : Value) : M W unit :=
  fun s =>
    match heap s !! obj with
    | None => (Raise AttributeError, s)
    | Some o =>
        (Ok (), mkStore (world s) (motor s)
                  (<[obj := mkObj (obj_class o) (<[n := v]> (obj_dict o))]> (heap s))
                  (trace s))
    end.

(** ** motor.py: class [Motor] *)
Module Motor.
Section methods.
Context {W : Type}.
Local Open Scope motor_scope.

(** [Motor(db_module)] *)
Definition init (db_module0 : Driver W) : MotorObj W :=
  mkMotor db_module0 None.

Definition connectDB (dsn : string) : M W unit :=
  c <- call (EvConnect dsn) (fun d => connect d dsn) ;;
  set_db_conn (Some c).

Definition closeDBConn : M W unit :=
  c <- the_db_conn ;;
  call EvClose (fun d => close d c) ;;;
  set_db_conn None.

(** The generator made by [getData]: not started, between rows on cursor
    [dbc], or finished. *)
Inductive rows :=
| RowsNew (query : string)
| RowsOpen (dbc : nat)
| RowsDone.

(** [while row: yield row] *)
Definition row_truthy (row : option (list Value)) : option (list Value) :=
  match row with
  | Some (v :: r) => Some (v :: r)
  | _ => None
  end.

(** Calling [getData(query, cols)] only makes the generator. *)
Definition getData (query : string) (cols : list name) : rows :=
  RowsNew query.

(** One [next()] of the generator: the row yielded, or [None] when it is
    exhausted, and the generator afterwards. *)
Definition getData_next (g : rows) : M W (option (list Value) * rows) :=
  match g with
  | RowsNew query =>
      c <- the_db_conn ;;
      dbc <- call EvCursor (fun d => cursor d c) ;;
      call (EvExecute query PNone) (fun d => execute d dbc query PNone) ;;;
      row <- call EvFetchone (fun d => fetchone d dbc) ;;
      match row_truthy row with
      | Some r => ret (Some r, RowsOpen dbc)
      | None => ret (None, RowsDone)
      end
  | RowsOpen dbc =>
      row <- call EvFetchone (fun d => fetchone d dbc) ;;
      match row_truthy row with
      | Some r => ret (Some r, RowsOpen dbc)
      | None => ret (None, RowsDone)
      end
  | RowsDone => ret (None, RowsDone)
  end.

Definition add (query : string) (data : gmap name Value) : M W unit :=
  c <- the_db_conn ;;
  dbc <- call EvCursor (fun d => cursor d c) ;;
  call (EvExecute query (PDict data)) (fun d => execute d dbc query (PDict data)).

Definition update (query : string) (data : list Value) (key : Value) : M W unit :=
  c <- the_db_conn ;;
  dbc <- call EvCursor (fun d => cursor d c) ;;
  let p := PTuple (data ++ [key]) in
  call (EvExecute query p) (fun d => execute d dbc query p).

Definition delete (query : string) (key : Value) : M W unit :=
  c <- the_db_conn ;;
  dbc <- call EvCursor (fun d => cursor d c) ;;
  let p := PTuple [key] in
  call (EvExecute query p) (fun d => execute d dbc query p).

Definition executeMany (query : string) (iterator : list (list Value)) : M W unit :=
  c <- the_db_conn ;;
  dbc <- call EvCursor (fun d => cursor d c) ;;
  call (EvExecuteMany query iterator) (fun d => executemany d dbc query iterator).

Definition commit : M W unit :=
  c <- the_db_conn ;;
  call EvCommit (fun d => commit d c).

Definition rollback : M W unit :=
  c <- the_db_conn ;;
  call EvRollback (fun d => rollback d c).

(** [dbc.fetchone()[0]] *)
Definition first_column (row : option (list Value)) : result Value :=
  match row with
  | None => Raise TypeError
  | Some [] => Raise IndexError
  | Some (v :: _) => Ok v
  end.

Definition getKey (query : string) : M W Value :=
  c <- the_db_conn ;;
  dbc <- call EvCursor (fun d => cursor d c) ;;
  call (EvExecute query PNone) (fun d => execute d dbc query PNone) ;;;
  row <- call EvFetchone (fun d => fetchone d dbc) ;;
  lift (first_column row).

End methods.
End Motor.

(** ** motor.py: class [Convertor] *)

(** The double quote character, as a string. *)
Definition dquote : string := String (Ascii.ascii_of_nat 34) EmptyString.

(** ['"%s"' % n] *)
Definition quoted (n : name) : string := dquote +:+ fmt n +:+ dquote.

Module Convertor.

(** The statements filed under one many-to-many association. *)
Record pair_queries := mkPairQueries {
  q_addPair : string;
  q_delPair : string;
  q_getPair : string
}.

(** The [queries] mapping: one statement per operation, and the statements
    of each association under the association's identity. *)
Record queries_t := mkQueries {
  q_getObjects : string;
  q_add : string;
  q_update : string;
  q_delete : string;
  q_getKey : string;
  q_asc : list (nat * pair_queries)
}.

(** The convertor object; its [motor] attribute refers to the motor of the
    store. *)
Record t := mk {
  queries : queries_t;
  cls : Persistence.t;
  columns : list name;
  oto_ascs : list Column.t;
  mtm_ascs : list Column.t;
  asc_cols : list (nat * (name * name))
}.

Definition select_query (columns0 : list name) (relation0 : name) : string :=
  "select " +:+ dquote +:+ "__key__" +:+ dquote +:+ ", "
  +:+ join ", " (quoted <$> columns0)
  +:+ " from " +:+ quoted relation0.

Definition insert_query (columns0 : list name) (relation0 : name) : string :=
  "insert into " +:+ quoted relation0 +:+ " (__key__, "
  +:+ join ", " (quoted <$> columns0)
  +:+ ") values (%(__key__)s, "
  +:+ join ", " ((fun col => "%(" +:+ fmt col +:+ ")s") <$> columns0)
  +:+ ")".

Definition update_query (columns0 : list name) (relation0 : name) : string :=
  "update " +:+ quoted relation0 +:+ " set "
  +:+ join ", " ((fun col => quoted col +:+ " = %s") <$> columns0)
  +:+ " where __key__ = %s".

Definition delete_query (relation0 : name) : string :=
  "delete from " +:+ quoted relation0 +:+ " where __key__ = %s".

Definition key_query (sequencer0 : name) : string :=
  "select nextval('" +:+ fmt sequencer0 +:+ "')".

Definition addPair_query (relation0 : name) (pair : name * name) : string :=
  "insert into " +:+ quoted relation0 +:+ " ("
  +:+ join ", " (quoted <$> [pair.1; pair.2])
  +:+ ") values("
  +:+ join ", " (replicate 2 "%s")
  +:+ ")".

Definition delPair_query (relation0 : name) (pair : name * name) : string :=
  "delete from " +:+ quoted relation0 +:+ " where "
  +:+ join " and " ((fun c => quoted c +:+ " = %s") <$> [pair.1; pair.2]).

Definition getPair_query (relation0 : name) (pair : name * name) : string :=
  "select " +:+ join ", " (quoted <$> [pair.1; pair.2])
  +:+ " from " +:+ quoted relation0.

(** One turn of the loop over [mtm_ascs] in [__init__]: the assertion on
    the association of [col], then its entries in [queries] and
    [asc_cols]. *)
Definition init_asc
    (acc : list (nat * pair_queries) * list (nat * (name * name)))
    (col : Column.t)
    : result (list (nat * pair_queries) * list (nat * (name * name))) :=
  match Column.association col with
  | None => Raise AttributeError
  | Some asc =>
      if bool_decide (asc_col_vcls asc = Column.vcls col)
      then
        let pair := (Column.col col, Column.vcol col) in
        let asc_cols0 := odict.set acc.2 (asc_id asc) pair in
        let relation0 := Column.link col in
        Ok (odict.set acc.1 (asc_id asc)
              (mkPairQueries (addPair_query relation0 pair)
                             (delPair_query relation0 pair)
                             (getPair_query relation0 pair)),
            asc_cols0)
      else Raise AssertionError
  end.

Fixpoint init_ascs
    (acc : list (nat * pair_queries) * list (nat * (name * name)))
    (cols : list Column.t)
    : result (list (nat * pair_queries) * list (nat * (name * name))) :=
  match cols with
  | [] => Ok acc
  | col :: cols' =>
      match init_asc acc col with
      | Ok acc' => init_ascs acc' cols'
      | Raise e => Raise e
      end
  end.

(** [Convertor.__init__(cls, mtr)], with [mtr] the motor of the store. *)
Definition init (cls0 : Persistence.t) : result t :=
  let cls_columns := odict.values (Persistence.columns cls0) in
  let columns0 : list name :=
    Column.col <$> filter (fun col => Column.association col = None) cls_columns in
  let oto_ascs0 := filter (fun col => Column.is_one_to_one col = true) cls_columns in
  let columns0 := columns0 ++ (Column.col <$> oto_ascs0) in
  let mtm_ascs0 := filter (fun col => Column.is_many_to_many col = true) cls_columns in
  let relation0 := Persistence.relation cls0 in
  match init_ascs ([], []) mtm_ascs0 with
  | Raise e => Raise e
  | Ok (q_asc0, asc_cols0) =>
      Ok {| queries :=
              {| q_getObjects := select_query columns0 relation0;
                 q_add := insert_query columns0 relation0;
                 q_update := update_query columns0 relation0;
                 q_delete := delete_query relation0;
                 q_getKey := key_query (Persistence.sequencer cls0);
                 q_asc := q_asc0 |};
            cls := cls0;
            columns := columns0;
            oto_ascs := oto_ascs0;
            mtm_ascs := mtm_ascs0;
            asc_cols := asc_cols0 |}
  end.

(** The loop of [getData] over the one-to-one descriptors. *)
Fixpoint getData_loop (h : gmap addr Obj) (obj : addr)
    (cols : list Column.t) (data : gmap name Value)
    : result (gmap name Value) :=
  match cols with
  | [] => Ok data
  | col :: cols' =>
      match getattr h obj (Column.attr col) with
      | Raise e => Raise e
      | Ok value =>
          if is_None_value value
          then getData_loop h obj cols' (<[Column.col col := VNone]> data)
          else
            match key_of h value with
            | Raise e => Raise e
            | Ok k => getData_loop h obj cols' (<[Column.col col := k]> data)
            end
      end
  end.

(** [self.getData(obj)] on the heap [h]. *)
Definition getData_in (self : t) (h : gmap addr Obj) (obj : addr)
    : result (gmap name Value) :=
  match h !! obj with
  | None => Raise AttributeError
  | Some o => getData_loop h obj (oto_ascs self) (obj_dict o)
  end.

(** [[data[col] for col in columns]] *)
Fixpoint values_of (data : gmap name Value) (cols : list name)
    : result (list Value) :=
  match cols with
  | [] => Ok []
  | col :: cols' =>
      match data !! col with
      | None => Raise KeyError
      | Some v =>
          match values_of data cols' with
          | Ok vs => Ok (v :: vs)
          | Raise e => Raise e
          end
      end
  end.

Section methods.
Context {W : Type}.
Local Open Scope motor_scope.

Definition getData (self : t) (obj : addr) : M W (gmap name Value) :=
  fun s => (getData_in self (heap s) obj, s).

(** [getattr] in the current heap. *)
Definition read_attr (obj : addr) (n : name) : M W Value :=
  fun s => (getattr (heap s) obj n, s).

Definition addPair (self : t) (asc : Association) (pairs : list (list Value)) : M W unit :=
  match odict.get (q_asc (queries self)) (asc_id asc) with
  | None => raise KeyError
  | Some q => Motor.executeMany (q_addPair q) pairs
  end.

Definition delPair (self : t) (asc : Association) (pairs : list (list Value)) : M W unit :=
  match odict.get (q_asc (queries self)) (asc_id asc) with
  | None => raise KeyError
  | Some q => Motor.executeMany (q_delPair q) pairs
  end.

Definition add (self : t) (obj : addr) : M W unit :=
  data <- getData self obj ;;
  key <- Motor.getKey (q_getKey (queries self)) ;;
  let data := <[Some "__key__" := key]> data in
  Motor.add (q_add (queries self)) data ;;;
  setattr obj (Some "__key__") key.

Definition update (self : t) (obj : addr) : M W unit :=
  data <- getData self obj ;;
  row <- lift (values_of data (columns self)) ;;
  key <- read_attr obj (Some "__key__") ;;
  Motor.update (q_update (queries self)) row key.

Definition delete (self : t) (obj : addr) : M W unit :=
  key <- read_attr obj (Some "__key__") ;;
  Motor.delete (q_delete (queries self)) key.

(** The generator made by [getPair]: not started, reading the rows of [g],
    or finished. *)
Inductive pairs :=
| PairsNew (asc : Association)
| PairsOpen (g : Motor.rows)
| PairsDone.

(** Calling [getPair(asc)] only makes the generator. *)
Definition getPair (self : t) (asc : Association) : pairs := PairsNew asc.

(** [data[0], data[1]] *)
Definition first_two (data : list Value) : result (Value * Value) :=
  match data with
  | v0 :: v1 :: _ => Ok (v0, v1)
  | _ => Raise IndexError
  end.

(** One turn of [for data in ...: yield data[0], data[1]]. *)
Definition getPair_row (g : Motor.rows) : M W (option (Value * Value) * pairs) :=
  r <- Motor.getData_next g ;;
  match r.1 with
  | Some data => p <- lift (first_two data) ;; ret (Some p, PairsOpen r.2)
  | None => ret (None, PairsDone)
  end.

(** One [next()] of the generator of [getPair]. *)
Definition getPair_next (self : t) (g : pairs)
    : M W (option (Value * Value) * pairs) :=
  match g with
  | PairsNew asc =>
      match odict.get (asc_cols self) (asc_id asc) with
      | None => raise KeyError
      | Some cols =>
          match odict.get (q_asc (queries self)) (asc_id asc) with
          | None => raise KeyError
          | Some q => getPair_row (Motor.getData (q_getPair q) [cols.1; cols.2])
          end
      end
  | PairsOpen g' => getPair_row g'
  | PairsDone => ret (None, PairsDone)
  end.

End methods.

Section loading.
Context {W : Type}.
Local Open Scope motor_scope.

(** [self.cls()]: the call of the application class, whose constructor
    bazaar.core defines.  It hands back the address of the object made. *)
Variable construct : Persistence.t -> M W addr.

(** [setattr(obj, n, v)] with its check of the attribute name. *)
Definition set_attribute (obj : addr) (n : name) (v : Value) : M W unit :=
  match n with
  | None => raise TypeError
  | Some _ => setattr obj n v
  end.

(** [for i in range(len(cols)): setattr(obj, cols[i], data[i])] *)
Fixpoint set_row (obj : addr) (cols : list name) (data : list Value) : M W unit :=
  match cols with
  | [] => ret ()
  | c :: cols' =>
      match data with
      | [] => raise IndexError
      | v :: data' => set_attribute obj c v ;;; set_row obj cols' data'
      end
  end.

(** The generator made by [getObjects]. *)
Inductive objects :=
| ObjectsNew
| ObjectsOpen (g : Motor.rows)
| ObjectsDone.

(** Calling [getObjects()] only makes the generator. *)
Definition getObjects (self : t) : objects := ObjectsNew.

(** The body of the loop over the rows: a new instance, its attributes set
    from the row. *)
Definition load (self : t) (data : list Value) : M W addr :=
  obj <- construct (cls self) ;;
  set_row obj (Some "__key__" :: columns self) data ;;;
  ret obj.

Definition getObjects_row (self : t) (g : Motor.rows) : M W (option addr * objects) :=
  r <- Motor.getData_next g ;;
  match r.1 with
  | Some data => obj <- load self data ;; ret (Some obj, ObjectsOpen r.2)
  | None => ret (None, ObjectsDone)
  end.

(** One [next()] of the generator of [getObjects]. *)
Definition getObjects_next (self : t) (g : objects) : M W (option addr * objects) :=
  match g with
  | ObjectsNew =>
      getObjects_row self
        (Motor.getData (q_getObjects (queries self)) (Some "__key__" :: columns self))
  | ObjectsOpen g' => getObjects_row self g'
  | ObjectsDone => ret (None, ObjectsDone)
  end.

End loading.
End Convertor.

(** ** The notions the properties are stated with *)

(** The classes a class derives its columns from: itself and, through its
    bases that are instances of [Persistence], theirs. *)
Fixpoint hierarchy (c : Persistence.t) : list Persistence.t :=
  c :: flat_map (fun b => if Persistence.is_persistence b then hierarchy b else [])
                (Persistence.bases c).

(** A plain descriptor references no class. *)
Definition is_plain (c : Column.t) : bool := negb (Column.is_set (Column.vcls c)).





(** The mirrored descriptor [d] of the partner class agrees with [c]: same
    link relation, reversed column pair. *)
Definition mirrors (c d : Column.t) : bool :=
  bool_decide (Column.link d = Column.link c)
  && bool_decide (Column.col d = Column.vcol c)
  && bool_decide (Column.vcol d = Column.col c).

(** The classification left when none of the three association predicates
    holds. *)
Definition unclassified (c : Column.t) : bool :=
  negb (Column.is_one_to_one c) && negb (Column.is_one_to_many c)
  && negb (Column.is_many_to_many c).

(** How many of the four classifications hold of a descriptor. *)
Definition classifications (c : Column.t) : nat :=
  length (filter (fun b => b = true)
            [unclassified c; Column.is_one_to_one c; Column.is_one_to_many c;
             Column.is_many_to_many c]).

(** The descriptor the arguments of [addColumn] describe. *)
Definition described (attr col : name) (vcls : option cls_ref)
    (link vcol vattr : name) (update0 : bool) : Column.t :=
  Column.mk attr (match col with None => attr | Some _ => col end)
    vcls link vcol vattr None update0 None.

(** The same with the association cache class a "many" descriptor gets. *)
Definition requested (attr col : name) (vcls : option cls_ref)
    (link vcol vattr : name) (update0 : bool) : Column.t :=
  let d := described attr col vcls link vcol vattr update0 in
  if Column.is_many d then Column.set_cache d (Some FullAssociation) else d.

(** The link statements of a many-to-many descriptor. *)
Definition link_queries (c : Column.t) : Convertor.pair_queries :=
  let pair := (Column.col c, Column.vcol c) in
  Convertor.mkPairQueries
    (Convertor.addPair_query (Column.link c) pair)
    (Convertor.delPair_query (Column.link c) pair)
    (Convertor.getPair_query (Column.link c) pair).

(** The check [__init__] makes on a many-to-many descriptor: it is bound to
    an association, and the descriptor of that association references the
    same class. *)
Definition own_association_ok (c : Column.t) : Prop :=
  ∃ a, Column.association c = Some a ∧ asc_col_vcls a = Column.vcls c.

(** How that check fails. *)
Definition own_association_fails (e : exn) (c : Column.t) : Prop :=
  (Column.association c = None ∧ e = AttributeError)
  ∨ (∃ a, Column.association c = Some a ∧ asc_col_vcls a ≠ Column.vcls c
          ∧ e = AssertionError).

(** The events logged between two stores. *)
Definition events_since {W} (s s' : Store W) : list Event :=
  drop (length (trace s)) (trace s').

(** The loop of [getColumns] over the bases. *)
Definition inherit (cols : list (name * Column.t)) (bs : list Persistence.t)
    : list (name * Column.t) :=
  fold_left
    (fun cols cls =>
       if Persistence.is_persistence cls
       then odict.update cols (Persistence.getColumns cls) else cols)
    bs cols.

(** What a motor operation leaves untouched, and what it logs. *)
Definition extends {W} (s s' : Store W) (evs : list Event) : Prop :=
  heap s' = heap s ∧ motor s' = motor s ∧ trace s' = trace s ++ evs.

(** [logs m full]: running [m] touches neither the heap nor the motor, logs
    a prefix of [full], and logs all of [full] when it returns. *)
Definition logs {W A} (m : M W A) (full : list Event) : Prop :=
  ∀ s, ∃ evs, extends s (m s).2 evs
              ∧ evs `prefix_of` full
              ∧ (is_Ok (m s).1 = true → evs = full).



(** Every statement entry filed so far comes from a descriptor of [S] bound
    to the association it is filed under, with the matching column pair. *)
Definition filed_from (S : Column.t → Prop)
    (acc : list (nat * Convertor.pair_queries) * list (nat * (name * name))) : Prop :=
  ∀ i q, odict.get acc.1 i = Some q →
    ∃ c a, S c ∧ Column.association c = Some a ∧ asc_id a = i
           ∧ odict.get acc.2 i = Some (Column.col c, Column.vcol c)
           ∧ q = link_queries c.

(** Every descriptor of [S] has an entry under its association. *)
Definition all_filed (S : Column.t → Prop)
    (acc : list (nat * Convertor.pair_queries) * list (nat * (name * name))) : Prop :=
  ∀ c a, S c → Column.association c = Some a → is_Some (odict.get acc.1 (asc_id a)).

(** The [columns] mapping of a class is well formed: no name twice, and
    every descriptor filed under its own attribute name. *)
Definition columns_wf (cols : list (name * Column.t)) : Prop :=
  NoDup (odict.keys cols) ∧ ∀ k c, (k, c) ∈ cols → Column.attr c = k.

(** The loop of [__new__] over the bases, merging their defaults. *)
Definition merge_defaults (acc : gmap name Value) (bs : list Persistence.t)
    : gmap name Value :=
  fold_left
    (fun acc c => if Persistence.has_defaults c then Persistence.defaults c ∪ acc else acc)
    bs acc.

(** Asking a row sequence for up to [n] rows: the rows got and the
    sequence afterwards. *)
Fixpoint take_rows {W} (n : nat) (g : Motor.rows)
    : M W (list (list Value) * Motor.rows) :=
  match n with
  | 0 => ret ([], g)
  | S n' =>
      bind (Motor.getData_next g) (fun r =>
        match r.1 with
        | Some row =>
            bind (take_rows n' r.2) (fun rest => ret (row :: rest.1, rest.2))
        | None => ret ([], r.2)
        end)
  end.

(** How many times a character occurs in a string. *)
Fixpoint count_char (c : Ascii.ascii) (s : string) : nat :=
  match s with
  | EmptyString => 0
  | String c' s' => (if bool_decide (c' = c) then 1 else 0) + count_char c s'
  end.

(** The percent sign, which starts every placeholder. *)
Definition percent : Ascii.ascii := Ascii.ascii_of_nat 37.

(** The name is written without percent sign. *)
Definition percent_free (n : name) : Prop := count_char percent (fmt n) = 0.

(** The instance dictionary after the attributes named [cols] have been
    assigned the values [data], one by one. *)
Fixpoint assign (cols : list name) (data : list Value) (d : gmap name Value)
    : gmap name Value :=
  match cols, data with
  | c :: cols', v :: data' => assign cols' data' (<[c := v]> d)
  | _, _ => d
  end.

(** ** Sample classes, objects and databases *)
Module Sample.

(** A base class that is not an instance of the metaclass. *)
Definition PersistentObject : Persistence.t :=
  Persistence.mk "PersistentObject" false [] None None [] FullObject ∅ None VNone
    false.

Definition run (r : result Persistence.t)
    (f : Persistence.t -> result unit * Persistence.t) : result Persistence.t :=
  match r with
  | Raise e => Raise e
  | Ok c => match f c with
            | (Ok _, c') => Ok c'
            | (Raise e, _) => Raise e
            end
  end.

Definition class_of (r : result Persistence.t) : Persistence.t :=
  match r with Ok c => c | Raise _ => PersistentObject end.

(** [Order = Persistence('Order', relation = 'order')] with columns [no],
    [finished] and the one-to-many association [items]. *)
Definition Order : Persistence.t := Eval vm_compute in
  class_of
    (run (run (run (Persistence.new "Order" [PersistentObject] Persistence.no_data
                      (Some "order") None)
       (fun c => Persistence.addColumn c (Some "no") None None None None None true))
       (fun c => Persistence.addColumn c (Some "finished") None None None None None true))
       (fun c => Persistence.addColumn c (Some "items") None (Some "OrderItem") None
                   (Some "order_fkey") (Some "order") true)).

(** [Order] with plain columns only. *)
Definition PlainOrder : Persistence.t := Eval vm_compute in
  class_of
    (run (run (Persistence.new "Order" [PersistentObject] Persistence.no_data
                 (Some "order") None)
       (fun c => Persistence.addColumn c (Some "no") None None None None None true))
       (fun c => Persistence.addColumn c (Some "finished") None None None None None true)).

(** A class whose plain attribute [name] is stored in column [name_col]. *)
Definition Article : Persistence.t := Eval vm_compute in
  class_of
    (run (Persistence.new "Article" [PersistentObject] Persistence.no_data
            (Some "article") None)
       (fun c => Persistence.addColumn c (Some "name") (Some "name_col") None None None None true)).

(** The association objects the core binds to descriptors. *)
Definition bind_association (a : Association) (kc : name * Column.t) : name * Column.t :=
  (kc.1, if Column.is_set (Column.vcls kc.2)
         then Column.set_association kc.2 (Some a) else kc.2).

Definition bound (c : Persistence.t) (first_id : nat) : Persistence.t :=
  Persistence.set_columns c
    (imap (fun i kc => bind_association
                         (mkAssociation (first_id + i) (Column.vcls kc.2)) kc)
          (Persistence.columns c)).

(** [Department.addColumn('boss', 'boss_fkey', Boss, vattr = 'department')] *)
Definition Department : Persistence.t := Eval vm_compute in
  bound (class_of
    (run (run (Persistence.new "Department" [PersistentObject] Persistence.no_data
            (Some "department") None)
       (fun c => Persistence.addColumn c (Some "title") None None None None None true))
       (fun c => Persistence.addColumn c (Some "boss") (Some "boss_fkey") (Some "Boss")
                   None None (Some "department") true))) 10.

(** [Order] once its association is bound. *)
Definition BoundOrder : Persistence.t := Eval vm_compute in bound Order 20.

(** Two sides of a bi-directional many-to-many association that disagree
    on the link relation. *)
Definition Employee : Persistence.t := Eval vm_compute in
  bound (class_of
    (run (run (Persistence.new "Employee" [PersistentObject] Persistence.no_data
            (Some "employee") None)
       (fun c => Persistence.addColumn c (Some "name") None None None None None true))
       (fun c => Persistence.addColumn c (Some "orders") (Some "employee") (Some "EOrder")
                   (Some "employee_orders") (Some "order") (Some "employees") true))) 30.

Definition EOrder : Persistence.t := Eval vm_compute in
  bound (class_of
    (run (run (Persistence.new "EOrder" [PersistentObject] Persistence.no_data
            (Some "order") None)
       (fun c => Persistence.addColumn c (Some "no") None None None None None true))
       (fun c => Persistence.addColumn c (Some "employees") (Some "order") (Some "Employee")
                   (Some "orders_of_employees") (Some "employee") (Some "orders") true))) 40.

(** The classes known to the application, by name. *)
Definition classes : gmap string Persistence.t :=
  {[ "Employee" := Employee; "EOrder" := EOrder ]}.

(** A diamond: [D(B, C)], [B(A)], [C(A)]. *)
Definition plain_col (n : string) (c : string) : name * Column.t :=
  (Some n, Column.init (Some n) (Some c)).

Definition A : Persistence.t :=
  Persistence.mk "A" true [PersistentObject] (Some "a") (Some "a_seq")
    [plain_col "id" "a_id"; plain_col "x" "a_x"] FullObject ∅ None VNone true.
Definition B : Persistence.t :=
  Persistence.mk "B" true [A] (Some "b") (Some "b_seq")
    [plain_col "x" "b_x"; plain_col "y" "b_y"] FullObject ∅ None VNone true.
Definition C : Persistence.t :=
  Persistence.mk "C" true [A] (Some "c") (Some "c_seq")
    [plain_col "z" "c_z"] FullObject ∅ None VNone true.
Definition D : Persistence.t :=
  Persistence.mk "D" true [B; C] (Some "d") (Some "d_seq")
    [plain_col "y" "d_y"] FullObject ∅ None VNone true.

(** The attributes an instance finds on a class made by the metaclass. *)
Definition class_attrs (c : Persistence.t) : gmap name Value :=
  {[ Some "__key__" := Persistence.key c;
     Some "relation" := match Persistence.relation c with
                        | Some r => VStr r | None => VNone end;
     Some "columns" := VOpaque;
     Some "defaults" := VOpaque ]}.

(** A database with one sequence: [next_key] is the value [nextval] gives
    next, [pending] tells that the open cursor has that row to fetch. *)
Record db := mkDb {
  next_key : Z;
  pending : bool;
  reject_insert : bool;
  reject_nextval : bool
}.

Definition driver : Driver db :=
  {| connect := fun dsn w => (Ok 1, w);
     close := fun c w => (Ok (), w);
     cursor := fun c w => (Ok 7, w);
     execute := fun dbc q p w =>
       match p with
       | PNone =>
           if reject_nextval w then (Raise (DatabaseError 42), w)
           else (Ok (), mkDb (next_key w) true (reject_insert w) (reject_nextval w))
       | PDict _ =>
           if reject_insert w then (Raise (DatabaseError 23), w) else (Ok (), w)
       | PTuple _ => (Ok (), w)
       end;
     executemany := fun dbc q ps w => (Ok (), w);
     fetchone := fun dbc w =>
       if pending w
       then (Ok (Some [VInt (next_key w)]),
             mkDb (next_key w + 1) false (reject_insert w) (reject_nextval w))
       else (Ok None, w);
     commit := fun c w => (Ok (), w);
     rollback := fun c w => (Ok (), w) |}.

(** Object 1 is a fresh order, object 2 an article, object 3 a department
    whose boss is object 4, object 5 a department without boss. *)
Definition objects : gmap addr Obj :=
  {[ 1 := mkObj (class_attrs PlainOrder)
            {[ Some "no" := VInt 5; Some "finished" := VBool false ]};
     2 := mkObj (class_attrs Article) {[ Some "name" := VStr "pen" ]};
     3 := mkObj (class_attrs Department)
            {[ Some "title" := VStr "sales"; Some "boss" := VRef 4 ]};
     4 := mkObj (class_attrs PersistentObject) {[ Some "__key__" := VInt 77 ]};
     5 := mkObj (class_attrs Department)
            {[ Some "title" := VStr "press"; Some "boss" := VNone ]} ]}.

Definition database (w : db) (conn : option nat) : Store db :=
  mkStore w (mkMotor driver conn) objects [].

Definition healthy : db := mkDb 100 false false false.
Definition no_sequence : db := mkDb 100 false false true.
Definition full_disk : db := mkDb 100 false true false.

Definition convertor_of (c : Persistence.t) : Convertor.t :=
  match Convertor.init c with
  | Ok conv => conv
  | Raise _ => Convertor.mk (Convertor.mkQueries EmptyString EmptyString EmptyString
                               EmptyString EmptyString []) c [] [] [] []
  end.

(** The convertors of the sample classes. *)
Definition order_convertor : Convertor.t := convertor_of PlainOrder.
Definition article_convertor : Convertor.t := convertor_of Article.
Definition department_convertor : Convertor.t := convertor_of Department.

(** The store before and after [connectDB]. *)
Definition unconnected : Store db := database healthy None.
Definition connected : Store db := database healthy (Some 1).

(** Some descriptors of the sample classes. *)
Definition items : Column.t :=
  requested (Some "items") None (Some "OrderItem") None
    (Some "order_fkey") (Some "order") true.
Definition name_column : Column.t := Column.init (Some "name") (Some "name_col").
Definition boss : Column.t :=
  Column.mk (Some "boss") (Some "boss_fkey") (Some "Boss") None None
    (Some "department") (Some (mkAssociation 11 (Some "Boss"))) true None.
Definition orders : Column.t :=
  Column.mk (Some "orders") (Some "employee") (Some "EOrder")
    (Some "employee_orders") (Some "order") (Some "employees")
    (Some (mkAssociation 31 (Some "EOrder"))) true (Some FullAssociation).
Definition employees : Column.t :=
  Column.mk (Some "employees") (Some "order") (Some "Employee")
    (Some "orders_of_employees") (Some "employee") (Some "orders")
    (Some (mkAssociation 41 (Some "Employee"))) true (Some FullAssociation).

(** The row of object 1. *)
Definition order_row : gmap name Value :=
  {[ Some "no" := VInt 5; Some "finished" := VBool false ]}.

(** A class that is not made by the metaclass and carries a [defaults]
    attribute all the same. *)
Definition Mixin : Persistence.t :=
  Persistence.mk "Mixin" false [] None None [] FullObject
    {[ Some "colour" := VStr "red" ]} None VNone true.

(** A class derived from [Mixin] and [PlainOrder] that supplies defaults of
    its own for [no] and [colour]. *)
Definition Special : Persistence.t := Eval vm_compute in
  class_of
    (Persistence.new "Special" [Mixin; PlainOrder]
       (Persistence.mkData None None None None
          (Some {[ Some "no" := VInt 1; Some "colour" := VStr "blue" ]}))
       None None).

(** [B] after [B.addColumn('id', 'b_id')], a name its base [A] declares. *)
Definition B_with_id : Persistence.t := Eval vm_compute in
  (Persistence.addColumn B (Some "id") (Some "b_id") None None None None true).2.

(** [PlainOrder] after a first [addColumn] for [total]. *)
Definition OrderWithTotal : Persistence.t := Eval vm_compute in
  (Persistence.addColumn PlainOrder (Some "total") None None None None None true).2.

(** [PlainOrder] after the many-to-many association [employees] has been
    declared. *)
Definition OrderWithEmployees : Persistence.t := Eval vm_compute in
  (Persistence.addColumn PlainOrder (Some "employees") (Some "order")
     (Some "Employee") (Some "employee_orders") (Some "employee") None true).2.

(** A database whose sequence gives no row. *)
Definition silent_driver : Driver db :=
  {| connect := fun dsn w => (Ok 1, w);
     close := fun c w => (Ok (), w);
     cursor := fun c w => (Ok 7, w);
     execute := fun dbc q p w => (Ok (), w);
     executemany := fun dbc q ps w => (Ok (), w);
     fetchone := fun dbc w => (Ok None, w);
     commit := fun c w => (Ok (), w);
     rollback := fun c w => (Ok (), w) |}.

Definition silent : Store db :=
  mkStore healthy (mkMotor silent_driver (Some 1)) objects [].

(** A constructor of application objects: the new object goes to address
    9, with an empty instance dictionary. *)
Definition construct (c : Persistence.t) : M db addr :=
  fun s => (Ok 9, mkStore (world s) (motor s)
                    (<[9 := mkObj (class_attrs c) ∅]> (heap s)) (trace s)).

Definition employee_convertor : Convertor.t := convertor_of Employee.





(** A class two of whose many-to-many descriptors are bound to one and the
    same association object. *)
Definition first_link : Column.t :=
  Column.mk (Some "first") (Some "two") (Some "T") (Some "link_one") (Some "t")
    None (Some (mkAssociation 60 (Some "T"))) true (Some FullAssociation).
Definition second_link : Column.t :=
  Column.mk (Some "second") (Some "two") (Some "T") (Some "link_two") (Some "t")
    None (Some (mkAssociation 60 (Some "T"))) true (Some FullAssociation).
Definition Two : Persistence.t :=
  Persistence.mk "Two" true [PersistentObject] (Some "two") (Some "two_seq")
    [(Some "first", first_link); (Some "second", second_link)]
    FullObject ∅ None VNone true.
Definition two_convertor : Convertor.t := convertor_of Two.

End Sample.

(** * Properties *)

(** ** Ordered mappings *)
Section odict_facts.
Context {K V : Type} `{EqDecision K}.
Implicit Types (d : list (K * V)) (k : K) (v : V).

Lemma odict_get_set d k v k' :
  odict.get (odict.set d k v) k' = if decide (k = k') then Some v else odict.get d k'.
Proof.
  induction d as [|[k0 v0] d IH]; simpl.
  - done.
  - destruct (decide (k0 = k)) as [->|Hne]; simpl.
    + destruct (decide (k = k')); done.
    + rewrite IH. destruct (decide (k0 = k')) as [->|]; [|done].
      by rewrite decide_False.
Qed.

Lemma odict_get_Some_elem d k v : odict.get d k = Some v → (k, v) ∈ d.
Proof.
  induction d as [|[k0 v0] d IH]; simpl; [done|].
  destruct (decide (k0 = k)) as [->|].
  - intros [= ->]. left.
  - intros. right. auto.
Qed.

Lemma odict_get_is_Some d k : is_Some (odict.get d k) ↔ k ∈ odict.keys d.
Proof.
  unfold odict.keys. induction d as [|[k0 v0] d IH]; simpl.
  - split; [intros [? [=]] | by intros ?%elem_of_nil].
  - rewrite elem_of_cons. destruct (decide (k0 = k)) as [->|].
    + split; eauto.
    + rewrite IH. split; [auto | intros [?|?]; [congruence|done]].
Qed.

Lemma odict_get_None d k : odict.get d k = None ↔ k ∉ odict.keys d.
Proof. rewrite <- odict_get_is_Some, eq_None_not_Some. done. Qed.

Lemma odict_mem_keys d k : odict.mem d k = true ↔ k ∈ odict.keys d.
Proof.
  rewrite <- odict_get_is_Some. unfold odict.mem.
  destruct (odict.get d k); split; eauto; try done.
Qed.

Lemma odict_elem_get d k v :
  NoDup (odict.keys d) → (k, v) ∈ d → odict.get d k = Some v.
Proof.
  unfold odict.keys. induction d as [|[k0 v0] d IH]; simpl.
  - by intros _ ?%elem_of_nil.
  - rewrite NoDup_cons, elem_of_cons. intros [Hk0 Hnd] [[= -> ->]|Hin].
    + by rewrite decide_True.
    + rewrite decide_False; [auto|].
      intros ->. apply Hk0. apply list_elem_of_fmap. by exists (k, v).
Qed.

Lemma odict_keys_set d k v k' :
  k' ∈ odict.keys (odict.set d k v) ↔ k' = k ∨ k' ∈ odict.keys d.
Proof.
  rewrite <- !odict_get_is_Some, odict_get_set.
  destruct (decide (k = k')) as [->|]; split; eauto.
  intros [?|?]; [congruence|done].
Qed.

Lemma odict_NoDup_set d k v :
  NoDup (odict.keys d) → NoDup (odict.keys (odict.set d k v)).
Proof.
  unfold odict.keys. induction d as [|[k0 v0] d IH]; simpl.
  - intros _. apply NoDup_singleton.
  - rewrite NoDup_cons. intros [Hk0 Hnd].
    destruct (decide (k0 = k)) as [->|Hne]; simpl.
    + by apply NoDup_cons.
    + apply NoDup_cons. split; [|auto].
      intros [?|?]%(odict_keys_set d k v k0); done.
Qed.

Lemma odict_NoDup_update d d2 :
  NoDup (odict.keys d) → NoDup (odict.keys (odict.update d d2)).
Proof.
  unfold odict.update. revert d.
  induction d2 as [|[k0 v0] d2 IH]; simpl; intros d Hd; [done|].
  apply IH. by apply odict_NoDup_set.
Qed.

Lemma odict_keys_update d d2 k :
  k ∈ odict.keys (odict.update d d2) ↔ k ∈ odict.keys d ∨ k ∈ odict.keys d2.
Proof.
  unfold odict.update. revert d.
  induction d2 as [|[k0 v0] d2 IH]; simpl; intros d.
  - split; [auto | intros [?|?%elem_of_nil]; done].
  - rewrite IH, odict_keys_set.
    change (odict.keys ((k0, v0) :: d2)) with (k0 :: odict.keys d2).
    rewrite elem_of_cons. tauto.
Qed.

Lemma odict_get_update_fresh d d2 k :
  k ∉ odict.keys d2 → odict.get (odict.update d d2) k = odict.get d k.
Proof.
  unfold odict.update, odict.keys. revert d.
  induction d2 as [|[k0 v0] d2 IH]; simpl; intros d Hk; [done|].
  rewrite not_elem_of_cons in Hk. destruct Hk as [Hne Hk].
  rewrite IH by done. rewrite odict_get_set. by rewrite decide_False.
Qed.

Lemma odict_get_update_own d d2 k :
  NoDup (odict.keys d2) → k ∈ odict.keys d2 →
  odict.get (odict.update d d2) k = odict.get d2 k.
Proof.
  unfold odict.update, odict.keys. revert d.
  induction d2 as [|[k0 v0] d2 IH]; simpl; intros d Hnd Hk.
  - by apply elem_of_nil in Hk.
  - apply NoDup_cons in Hnd as [Hk0 Hnd].
    destruct (decide (k0 = k)) as [->|Hne].
    + pose proof (odict_get_update_fresh (odict.set d k v0) d2 k Hk0) as E.
      unfold odict.update in E. rewrite E, odict_get_set. by rewrite decide_True.
    + apply elem_of_cons in Hk as [?|Hk]; [congruence|]. by apply IH.
Qed.

Lemma odict_get_update_origin d d2 k v :
  odict.get (odict.update d d2) k = Some v →
  odict.get d k = Some v ∨ (k, v) ∈ d2.
Proof.
  unfold odict.update. revert d.
  induction d2 as [|[k0 v0] d2 IH]; simpl; intros d Hg; [by left|].
  apply IH in Hg as [Hg|Hg].
  - rewrite odict_get_set in Hg.
    destruct (decide (k0 = k)) as [->|]; [|by left].
    injection Hg as ->. right. left.
  - right. by right.
Qed.

End odict_facts.

(** ** Induction over a class and its bases *)
Lemma Persistence_ind_bases (P : Persistence.t → Prop) :
  (∀ c, Forall P (Persistence.bases c) → P c) → ∀ c, P c.
Proof.
  intros H.
  refine (fix IH (c : Persistence.t) : P c := _).
  apply H. destruct c as [n p bs r s cs ca d u k hd]. simpl.
  induction bs as [|b bs IHbs]; constructor; [apply IH | exact IHbs].
Qed.

(** ** Column descriptors *)


(** C8: whatever its fields hold, a descriptor has exactly one of the four
    classifications none, one-to-one, one-to-many, many-to-many; the three
    association predicates exclude each other pairwise, and a descriptor
    whose [vcls] is unset satisfies none of them. *)
Theorem classification_exclusive (c : Column.t) :
  classifications c = 1
  ∧ Column.is_one_to_one c && Column.is_one_to_many c = false
  ∧ Column.is_one_to_one c && Column.is_many_to_many c = false
  ∧ Column.is_one_to_many c && Column.is_many_to_many c = false
  ∧ Column.is_one_to_one (Column.set_vcls c None) = false
  ∧ Column.is_one_to_many (Column.set_vcls c None) = false
  ∧ Column.is_many_to_many (Column.set_vcls c None) = false
  ∧ unclassified (Column.set_vcls c None) = true.
Proof.
  destruct c as [a co [v|] [l|] [vc|] [va|] asc u ca]; destruct co;
    vm_compute; repeat split.
Qed.

(** The classification none is not only that of plain descriptors: a
    descriptor that references a class and a column of it, with neither
    link relation nor mirroring attribute, satisfies no predicate
    either. *)
Example unclassified_reference :
  unclassified (Column.mk (Some "items") (Some "items") (Some "OrderItem")
                  None (Some "order_fkey") None None true None) = true.
Proof. reflexivity. Qed.

(** ** Registering descriptors *)

Lemma addColumn_outcome self attr col vcls link vcol vattr update0 :
  let d := Column.set_vattr (Column.set_vcol (Column.set_link
             (Column.set_vcls (Column.init attr col) vcls) link) vcol) vattr in
  let defaults1 := <[attr := VNone]> (Persistence.defaults self) in
  let defaults2 :=
    if Column.is_one_to_one d && negb (bool_decide (attr = Column.col d))
    then <[Column.col d := VNone]> defaults1 else defaults1 in
  let self' := Persistence.set_defaults
                 (Persistence.set_update self (Some update0)) defaults2 in
  Persistence.addColumn self attr col vcls link vcol vattr update0 =
    if negb (truthy attr) then (Raise (NameError "ColumnMappingError"), self')
    else if odict.mem (Persistence.columns self) attr
    then (Raise (ColumnMappingError "column is defined"), self')
    else (Ok (),
          Persistence.set_columns self'
            (odict.set (Persistence.columns self) attr
               (if Column.is_many d
                then Column.set_cache d (Some FullAssociation) else d))).
Proof.
  unfold Persistence.addColumn. simpl.
  destruct (Column.is_one_to_one _ && _); simpl;
    destruct (negb (truthy attr)); try done;
    destruct (odict.mem _ attr); try done;
    destruct (Column.is_many _); done.
Qed.

(** What a successful [addColumn] registers: the fields passed, except that
    the descriptor's [update] keeps the value [Column.__init__] gave it and
    the [update] argument lands on the class. *)
Lemma addColumn_registers self attr col vcls link vcol vattr update0 self' :
  Persistence.addColumn self attr col vcls link vcol vattr update0 = (Ok (), self') →
  odict.get (Persistence.columns self') attr
    = Some (requested attr col vcls link vcol vattr true)
  ∧ Persistence.update self' = Some update0.
Proof.
  rewrite addColumn_outcome. simpl.
  destruct (negb (truthy attr)); [done|].
  destruct (odict.mem _ attr); [done|].
  intros [= <-]. simpl. rewrite odict_get_set, decide_True by done.
  split; [|done]. f_equal.
Qed.

(** C6: on the call [addColumn('items', vcls = OrderItem, vcol =
    'order_fkey', vattr = 'order', update = False)] the call succeeds, the
    descriptor registered under [items] has [update] true, and the value
    passed is found on the class instead. *)
Theorem addColumn_update_not_registered :
  (Persistence.addColumn Sample.PlainOrder (Some "items") None
     (Some "OrderItem") None (Some "order_fkey") (Some "order") false).1 = Ok ()
  ∧ odict.get
      (Persistence.columns
         (Persistence.addColumn Sample.PlainOrder (Some "items") None
            (Some "OrderItem") None (Some "order_fkey") (Some "order") false).2)
      (Some "items") = Some Sample.items
  ∧ Column.update Sample.items = true
  ∧ Persistence.update
      (Persistence.addColumn Sample.PlainOrder (Some "items") None
         (Some "OrderItem") None (Some "order_fkey") (Some "order") false).2
    = Some false.
Proof. vm_compute. done. Qed.

(** C10: when [addColumn] is called with an empty attribute name or with an
    attribute already among the class's columns, it raises, [columns] is as
    before the call, and [defaults] has been assigned all the same:
    [defaults[attr]] is [None], and for a one-to-one descriptor whose
    column differs from its attribute [defaults[col]] is [None] too. *)
Theorem addColumn_failure_keeps_columns self attr col vcls link vcol vattr update0 :
  truthy attr = false ∨ odict.mem (Persistence.columns self) attr = true →
  let r := Persistence.addColumn self attr col vcls link vcol vattr update0 in
  let d := described attr col vcls link vcol vattr true in
  let mirrored :=
    Column.is_one_to_one d && negb (bool_decide (Column.attr d = Column.col d)) in
  is_Ok r.1 = false
  ∧ Persistence.columns r.2 = Persistence.columns self
  ∧ Persistence.defaults r.2 !! attr = Some VNone
  ∧ (if mirrored then Persistence.defaults r.2 !! Column.col d = Some VNone else True)
  ∧ Persistence.defaults r.2 =
      (if mirrored
       then <[Column.col d := VNone]> (<[attr := VNone]> (Persistence.defaults self))
       else <[attr := VNone]> (Persistence.defaults self)).
Proof.
  intros Hfail. simpl. rewrite addColumn_outcome. simpl.
  set (b := _ && negb _).
  assert (Hres : ∀ (X Y Z : result unit * Persistence.t),
    (if negb (truthy attr) then X
     else if odict.mem (Persistence.columns self) attr then Y else Z)
    = (if negb (truthy attr) then X else Y)).
  { intros. destruct Hfail as [->| ->]; [done|]. by destruct (negb _). }
  rewrite Hres. clear Hres.
  assert (Hlook : (if b
      then <[match col with Some _ => col | None => attr end := VNone]>
             (<[attr := VNone]> (Persistence.defaults self))
      else <[attr := VNone]> (Persistence.defaults self)) !! attr = Some VNone).
  { destruct b; [|by rewrite lookup_insert_eq].
    rewrite lookup_insert. case_decide; [done|]. by rewrite lookup_insert_eq. }
  destruct (negb (truthy attr)); simpl; repeat split; try done;
    destruct b eqn:Hb; try done; by rewrite lookup_insert_eq.
Qed.

Lemma addColumn_failure_keeps_columns_witness :
  (truthy (Some "no") = false
   ∨ odict.mem (Persistence.columns Sample.PlainOrder) (Some "no") = true)
  ∧ is_Ok (Persistence.addColumn Sample.PlainOrder (Some "no") (Some "order_no")
             (Some "Order") None None None true).1 = false
  ∧ Persistence.columns
      (Persistence.addColumn Sample.PlainOrder (Some "no") (Some "order_no")
         (Some "Order") None None None true).2
    = Persistence.columns Sample.PlainOrder
  ∧ Persistence.defaults
      (Persistence.addColumn Sample.PlainOrder (Some "no") (Some "order_no")
         (Some "Order") None None None true).2 !! Some "no" = Some VNone
  ∧ Persistence.defaults
      (Persistence.addColumn Sample.PlainOrder (Some "no") (Some "order_no")
         (Some "Order") None None None true).2 !! Some "order_no" = Some VNone.
Proof.
  destruct (addColumn_failure_keeps_columns Sample.PlainOrder (Some "no")
              (Some "order_no") (Some "Order") None None None true
              (or_intror eq_refl)) as (H1 & H2 & H3 & H4 & _).
  split; [right; reflexivity|].
  split; [exact H1|]. split; [exact H2|]. split; [exact H3|exact H4].
Defined.

(** ** Inherited columns *)

Lemma getColumns_unfold c :
  Persistence.getColumns c
  = odict.update (inherit [] (Persistence.bases c)) (Persistence.columns c).
Proof. by destruct c. Qed.

Lemma hierarchy_unfold c k :
  k ∈ hierarchy c ↔
  k = c ∨ ∃ b, b ∈ Persistence.bases c ∧ Persistence.is_persistence b = true
               ∧ k ∈ hierarchy b.
Proof.
  destruct c as [n p bs r s cs ca d u ky hd]. simpl.
  rewrite elem_of_cons, list_elem_of_In, in_flat_map.
  setoid_rewrite <- list_elem_of_In.
  split; (intros [?|(b & H1 & H2)]; [by left|right; exists b]).
  - destruct (Persistence.is_persistence b) eqn:E; [done|].
    by apply elem_of_nil in H2.
  - destruct H2 as [E H2]. by rewrite E.
Qed.

Lemma inherit_NoDup cols bs :
  NoDup (odict.keys cols) → NoDup (odict.keys (inherit cols bs)).
Proof.
  unfold inherit. revert cols.
  induction bs as [|b bs IH]; simpl; intros cols Hnd; [done|].
  apply IH. destruct (Persistence.is_persistence b); [|done].
  by apply odict_NoDup_update.
Qed.

Lemma inherit_keys cols bs a :
  a ∈ odict.keys (inherit cols bs) ↔
  a ∈ odict.keys cols
  ∨ ∃ b, b ∈ bs ∧ Persistence.is_persistence b = true
         ∧ a ∈ odict.keys (Persistence.getColumns b).
Proof.
  unfold inherit. revert cols.
  induction bs as [|b bs IH]; simpl; intros cols.
  - split; [auto|]. intros [?|(b & ?%elem_of_nil & _)]; done.
  - rewrite IH. destruct (Persistence.is_persistence b) eqn:E.
    + rewrite odict_keys_update. split.
      * intros [[?|?]|(b' & ? & ? & ?)]; [by left| |].
        -- right. exists b. split; [left|done].
        -- right. exists b'. split; [by right|done].
      * intros [?|(b' & [->|?]%elem_of_cons & ? & ?)]; [by left; left| |].
        -- by left; right.
        -- right. by exists b'.
    + split.
      * intros [?|(b' & ? & ? & ?)]; [by left|].
        right. exists b'. split; [by right|done].
      * intros [?|(b' & [->|?]%elem_of_cons & ? & ?)]; [by left|congruence|].
        right. by exists b'.
Qed.

Lemma inherit_origin cols bs a d :
  odict.get (inherit cols bs) a = Some d →
  odict.get cols a = Some d
  ∨ ∃ b, b ∈ bs ∧ Persistence.is_persistence b = true
         ∧ odict.get (Persistence.getColumns b) a = Some d.
Proof.
  unfold inherit. revert cols.
  induction bs as [|b bs IH]; simpl; intros cols Hg; [by left|].
  apply IH in Hg as [Hg|(b' & ? & ? & ?)].
  - destruct (Persistence.is_persistence b) eqn:E; [|by left].
    apply odict_get_update_origin in Hg as [?|Hin]; [by left|].
    right. exists b. split; [left|]. split; [done|].
    apply odict_elem_get; [|done].
    rewrite getColumns_unfold. apply odict_NoDup_update, inherit_NoDup.
    apply NoDup_nil_2.
  - right. exists b'. split; [by right|done].
Qed.

Lemma getColumns_NoDup c : NoDup (odict.keys (Persistence.getColumns c)).
Proof.
  rewrite getColumns_unfold.
  apply odict_NoDup_update, inherit_NoDup, NoDup_nil_2.
Qed.

Lemma getColumns_keys c a :
  a ∈ odict.keys (Persistence.getColumns c) ↔
  ∃ k, k ∈ hierarchy c ∧ a ∈ odict.keys (Persistence.columns k).
Proof.
  revert a. induction c as [c IH] using Persistence_ind_bases. intros a.
  rewrite getColumns_unfold, odict_keys_update, inherit_keys.
  rewrite Forall_forall in IH. split.
  - intros [[?%elem_of_nil|(b & Hb & Hp & Ha)]|Ha]; [done| |].
    + apply (IH b Hb) in Ha as (k & Hk & Ha).
      exists k. split; [|done]. apply hierarchy_unfold. right. by exists b.
    + exists c. split; [|done]. apply hierarchy_unfold. by left.
  - intros (k & [->|(b & Hb & Hp & Hk)]%hierarchy_unfold & Ha); [by right|].
    left. right. exists b. split; [done|]. split; [done|].
    apply (IH b Hb). by exists k.
Qed.

Lemma getColumns_origin c a d :
  odict.get (Persistence.getColumns c) a = Some d →
  ∃ k, k ∈ hierarchy c ∧ (a, d) ∈ Persistence.columns k.
Proof.
  revert a d. induction c as [c IH] using Persistence_ind_bases. intros a d.
  rewrite getColumns_unfold. rewrite Forall_forall in IH.
  intros [[[=]|(b & Hb & Hp & Hg)]%inherit_origin|Hin]%odict_get_update_origin.
  - apply (IH b Hb) in Hg as (k & Hk & Hin).
    exists k. split; [|done]. apply hierarchy_unfold. right. by exists b.
  - exists c. split; [|done]. apply hierarchy_unfold. by left.
Qed.

(** C2: [getColumns()] returns the union of the descriptors declared in the
    class and in its transitive [Persistence] bases, keyed by attribute
    name: a name is a key exactly when some class of the hierarchy declares
    it, every descriptor returned is one declared under that name in the
    hierarchy, the class's own descriptor is the one returned for each name
    the class declares, and no name is listed twice, whatever the shape of
    the inheritance graph. *)
Theorem getColumns_union (c : Persistence.t) :
  NoDup (odict.keys (Persistence.columns c)) →
  NoDup (odict.keys (Persistence.getColumns c))
  ∧ (∀ a, a ∈ odict.keys (Persistence.getColumns c) ↔
          ∃ k, k ∈ hierarchy c ∧ a ∈ odict.keys (Persistence.columns k))
  ∧ (∀ a d, odict.get (Persistence.getColumns c) a = Some d →
            ∃ k, k ∈ hierarchy c ∧ (a, d) ∈ Persistence.columns k)
  ∧ (∀ a, a ∈ odict.keys (Persistence.columns c) →
          odict.get (Persistence.getColumns c) a
          = odict.get (Persistence.columns c) a).
Proof.
  intros Hown. split; [apply getColumns_NoDup|].
  split; [apply getColumns_keys|]. split; [apply getColumns_origin|].
  intros a Ha. rewrite getColumns_unfold. by apply odict_get_update_own.
Qed.

Lemma getColumns_union_witness :
  NoDup (odict.keys (Persistence.columns Sample.D))
  ∧ odict.keys (Persistence.getColumns Sample.D)
    = [Some "id"; Some "x"; Some "y"; Some "z"]
  ∧ NoDup (odict.keys (Persistence.getColumns Sample.D))
  ∧ odict.get (Persistence.getColumns Sample.D) (Some "y")
    = odict.get (Persistence.columns Sample.D) (Some "y").
Proof.
  assert (Hown : NoDup (odict.keys (Persistence.columns Sample.D)))
    by (apply NoDup_singleton).
  destruct (getColumns_union Sample.D Hown) as (H1 & _ & _ & H4).
  split; [exact Hown|]. split; [reflexivity|]. split; [exact H1|].
  apply H4. left.
Defined.

(** ** The motor *)
Section motor_facts.
Context {W : Type}.
Implicit Types (s : Store W) (q : string).

Lemma events_since_app s s' evs :
  trace s' = trace s ++ evs → events_since s s' = evs.
Proof. unfold events_since. intros ->. by rewrite drop_app_length. Qed.

Lemma extends_refl s : extends s s [].
Proof. unfold extends. by rewrite app_nil_r. Qed.

Lemma call_extends {A} ev (f : Driver W → W → result A * W) s :
  extends s (call ev f s).2 [ev].
Proof. unfold call. by destruct (f _ _). Qed.

Lemma extends_trans s s' s'' evs evs' :
  extends s s' evs → extends s' s'' evs' → extends s s'' (evs ++ evs').
Proof.
  intros (H1 & H2 & H3) (H1' & H2' & H3').
  unfold extends. rewrite H1', H2', H3', H1, H2, H3, app_assoc. done.
Qed.

(** Before [connectDB] every operation that touches the connection stops
    at [self.db_conn.cursor]. *)
Lemma unconnected_bind {B} (k : nat → M W B) s :
  db_conn (motor s) = None → bind the_db_conn k s = (Raise AttributeError, s).
Proof. intros E. unfold bind, the_db_conn. by rewrite E. Qed.

Lemma logs_pure {A} (f : Store W → result A) : logs (λ s : Store W, (f s, s)) [].
Proof.
  intros s. exists []. split; [apply extends_refl|]. by split.
Qed.

Lemma logs_call {A} ev (f : Driver W → W → result A * W) : logs (call ev f) [ev].
Proof.
  intros s. exists [ev]. split; [apply call_extends|]. by split.
Qed.

Lemma logs_bind {A B} (m : M W A) (k : A → M W B) l1 l2 :
  logs m l1 → (∀ a, logs (k a) l2) → logs (bind m k) (l1 ++ l2).
Proof.
  intros Hm Hk s. unfold bind.
  destruct (Hm s) as (evs1 & Hext1 & Hpre1 & Hfull1).
  destruct (m s) as [[a|e] s1]; simpl in *.
  - destruct (Hk a s1) as (evs2 & Hext2 & Hpre2 & Hfull2).
    exists (evs1 ++ evs2). split; [by eapply extends_trans|].
    rewrite Hfull1 by done. split; [by apply prefix_app|].
    intros Hok. by rewrite Hfull2.
  - exists evs1. split; [done|]. split; [|done].
    etrans; [done|]. by apply prefix_app_r.
Qed.

Lemma logs_the_db_conn : logs (W:=W) the_db_conn [].
Proof.
  intros s. unfold the_db_conn. exists [].
  destruct (db_conn (motor s)); (split; [apply extends_refl|by split]).
Qed.

(** One more bound call: [l] is what its first part logs. *)
Ltac logs_via l :=
  apply (logs_bind _ _ l);
  [first [apply logs_the_db_conn | apply logs_call] | intros ?].

Lemma logs_getKey q :
  logs (W:=W) (Motor.getKey q) [EvCursor; EvExecute q PNone; EvFetchone].
Proof.
  unfold Motor.getKey.
  logs_via (@nil Event). logs_via [EvCursor]. logs_via [EvExecute q PNone].
  logs_via [EvFetchone]. apply logs_pure.
Qed.

Lemma logs_add q data :
  logs (W:=W) (Motor.add q data) [EvCursor; EvExecute q (PDict data)].
Proof.
  unfold Motor.add. logs_via (@nil Event). logs_via [EvCursor]. apply logs_call.
Qed.

Lemma logs_update q row key :
  logs (W:=W) (Motor.update q row key)
    [EvCursor; EvExecute q (PTuple (row ++ [key]))].
Proof.
  unfold Motor.update. logs_via (@nil Event). logs_via [EvCursor]. apply logs_call.
Qed.

End motor_facts.

(** C9 as stated does not hold: an insert before [connectDB] raises
    [AttributeError], not [ConnectionError], and the row query does not
    fail when called. *)
Lemma unconnected_add_not_ConnectionError :
  db_conn (motor Sample.unconnected) = None
  ∧ (Motor.add "insert" ∅ Sample.unconnected).1 = Raise AttributeError
  ∧ (Motor.add "insert" ∅ Sample.unconnected).1 ≠ Raise ConnectionError
  ∧ Motor.getData "select" [] = Motor.RowsNew "select".
Proof. repeat split; done. Qed.

(** C9, amended: before [connectDB], insert, update, delete, batch
    execution and key allocation raise [AttributeError] without reaching
    the database module; the row query hands back its lazy sequence
    without failing, and asking that sequence for its first row raises
    [AttributeError]. *)
Theorem unconnected_operations {W} (s : Store W) (q : string)
    (data : gmap name Value) (row : list Value) (key : Value)
    (pairs : list (list Value)) (cols : list name) :
  db_conn (motor s) = None →
  Motor.add q data s = (Raise AttributeError, s)
  ∧ Motor.update q row key s = (Raise AttributeError, s)
  ∧ Motor.delete q key s = (Raise AttributeError, s)
  ∧ Motor.executeMany q pairs s = (Raise AttributeError, s)
  ∧ Motor.getKey q s = (Raise AttributeError, s)
  ∧ Motor.getData q cols = Motor.RowsNew q
  ∧ Motor.getData_next (Motor.getData q cols) s = (Raise AttributeError, s).
Proof.
  intros E. repeat split; try done; by apply unconnected_bind.
Qed.

Lemma unconnected_operations_witness :
  db_conn (motor Sample.unconnected) = None
  ∧ Motor.getKey "select nextval('order_seq')" Sample.unconnected
    = (Raise AttributeError, Sample.unconnected)
  ∧ Motor.getData_next (Motor.getData "select 1" []) Sample.unconnected
    = (Raise AttributeError, Sample.unconnected).
Proof.
  split; [reflexivity|].
  destruct (unconnected_operations Sample.unconnected
              "select nextval('order_seq')" ∅ [] VNone [] [] eq_refl)
    as (_ & _ & _ & _ & H & _).
  destruct (unconnected_operations Sample.unconnected
              "select 1" ∅ [] VNone [] [] eq_refl)
    as (_ & _ & _ & _ & _ & _ & H').
  split; [exact H|exact H'].
Defined.

(** ** Adding an object *)

Lemma setattr_spec {W} (obj : addr) (n : string) (v : Value) (s : Store W) (o : Obj) :
  heap s !! obj = Some o →
  let r := setattr obj (Some n) v s in
  r.1 = Ok ()
  ∧ heap r.2 !! obj = Some (mkObj (obj_class o) (<[Some n := v]> (obj_dict o)))
  ∧ getattr (heap r.2) obj (Some n) = Ok v
  ∧ (∀ a, a ≠ obj → heap r.2 !! a = heap s !! a)
  ∧ world r.2 = world s ∧ motor r.2 = motor s ∧ trace r.2 = trace s.
Proof.
  intros Ho. unfold setattr. rewrite Ho. simpl.
  split; [done|]. split; [by rewrite lookup_insert_eq|].
  split.
  - unfold getattr. rewrite lookup_insert_eq. simpl. by rewrite lookup_insert_eq.
  - split; [|done]. intros a Ha. by rewrite lookup_insert_ne.
Qed.

Lemma getData_in_obj (self : Convertor.t) (h : gmap addr Obj) (obj : addr) data :
  Convertor.getData_in self h obj = Ok data → is_Some (h !! obj).
Proof. unfold Convertor.getData_in. by destruct (h !! obj). Qed.





(** The same call when the sequence cannot be read, and when the insert is
    refused: the error reaches the caller and object 1 keeps its unset
    key. *)
Example add_without_sequence :
  (Convertor.add Sample.order_convertor 1
     (Sample.database Sample.no_sequence (Some 1))).1 = Raise (DatabaseError 42)
  ∧ trace (Convertor.add Sample.order_convertor 1
             (Sample.database Sample.no_sequence (Some 1))).2
    = [EvCursor; EvExecute "select nextval('order_seq')" PNone]
  ∧ getattr (heap (Convertor.add Sample.order_convertor 1
                     (Sample.database Sample.no_sequence (Some 1))).2)
      1 (Some "__key__") = Ok VNone.
Proof. vm_compute. done. Qed.

Example add_insert_refused :
  (Convertor.add Sample.order_convertor 1
     (Sample.database Sample.full_disk (Some 1))).1 = Raise (DatabaseError 23)
  ∧ world (Convertor.add Sample.order_convertor 1
             (Sample.database Sample.full_disk (Some 1))).2
    = Sample.mkDb 101 false true false
  ∧ getattr (heap (Convertor.add Sample.order_convertor 1
                     (Sample.database Sample.full_disk (Some 1))).2)
      1 (Some "__key__") = Ok VNone.
Proof. vm_compute. done. Qed.

(** ** Updating an object *)

(** C7 as stated does not hold: object 1 has no key yet, and [update]
    returns after issuing the statement keyed by [None]. *)
Lemma update_with_unset_key_succeeds :
  getattr (heap Sample.connected) 1 (Some "__key__") = Ok VNone
  ∧ (Convertor.update Sample.order_convertor 1 Sample.connected).1 = Ok ()
  ∧ trace (Convertor.update Sample.order_convertor 1 Sample.connected).2
    = [EvCursor;
       EvExecute (Convertor.q_update (Convertor.queries Sample.order_convertor))
         (PTuple [VInt 5; VBool false; VNone])].
Proof. vm_compute. done. Qed.

(** C7, amended: [update(obj)] makes no check of the key.  Once the row is
    extracted and the values of the ordered columns are found in it, the
    statement is issued with those values followed by whatever the key
    attribute of [obj] holds, the unset marker included, and the outcome
    of the database call, error or not, is the outcome of [update]. *)
Theorem update_keyed_by_key_attribute {W} (self : Convertor.t) (obj : addr)
    (s : Store W) (data : gmap name Value) (row : list Value) (key : Value) :
  Convertor.getData_in self (heap s) obj = Ok data →
  Convertor.values_of data (Convertor.columns self) = Ok row →
  getattr (heap s) obj (Some "__key__") = Ok key →
  let q := Convertor.q_update (Convertor.queries self) in
  let p := PTuple (row ++ [key]) in
  Convertor.update self obj s = Motor.update q row key s
  ∧ match db_conn (motor s) with
    | None => Convertor.update self obj s = (Raise AttributeError, s)
    | Some c =>
        match cursor (db_module (motor s)) c (world s) with
        | (Raise e, w1) =>
            Convertor.update self obj s
            = (Raise e, mkStore w1 (motor s) (heap s) (trace s ++ [EvCursor]))
        | (Ok dbc, w1) =>
            Convertor.update self obj s
            = ((execute (db_module (motor s)) dbc q p w1).1,
               mkStore (execute (db_module (motor s)) dbc q p w1).2 (motor s)
                 (heap s) (trace s ++ [EvCursor; EvExecute q p]))
        end
    end.
Proof.
  intros Hdata Hrow Hkey q p.
  assert (E : Convertor.update self obj s = Motor.update q row key s).
  { unfold Convertor.update, Convertor.getData, Convertor.read_attr, lift.
    unfold bind at 1. rewrite Hdata. unfold bind at 1. rewrite Hrow.
    unfold bind at 1. by rewrite Hkey. }
  split; [done|]. rewrite E. unfold Motor.update, bind, the_db_conn, call.
  destruct (db_conn (motor s)) as [c|]; [|done]. simpl.
  destruct (cursor _ c (world s)) as [[dbc|e] w1]; simpl; [|done].
  fold p. destruct (execute _ dbc q p w1) as [r w2]. simpl.
  by rewrite <- app_assoc.
Qed.

Lemma update_keyed_by_key_attribute_witness :
  Convertor.getData_in Sample.order_convertor (heap Sample.connected) 1
    = Ok Sample.order_row
  ∧ Convertor.values_of Sample.order_row (Convertor.columns Sample.order_convertor)
    = Ok [VInt 5; VBool false]
  ∧ getattr (heap Sample.connected) 1 (Some "__key__") = Ok VNone
  ∧ Convertor.update Sample.order_convertor 1 Sample.connected
    = Motor.update (Convertor.q_update (Convertor.queries Sample.order_convertor))
        [VInt 5; VBool false] VNone Sample.connected.
Proof.
  assert (H1 : Convertor.getData_in Sample.order_convertor (heap Sample.connected) 1
               = Ok Sample.order_row)
    by (vm_compute; reflexivity).
  assert (H2 : Convertor.values_of Sample.order_row
                 (Convertor.columns Sample.order_convertor)
               = Ok [VInt 5; VBool false])
    by (vm_compute; reflexivity).
  assert (H3 : getattr (heap Sample.connected) 1 (Some "__key__") = Ok VNone)
    by (vm_compute; reflexivity).
  destruct (update_keyed_by_key_attribute Sample.order_convertor 1
              Sample.connected _ _ _ H1 H2 H3) as [T _].
  split; [exact H1|]. split; [exact H2|]. split; [exact H3|exact T].
Defined.

(** ** Extracting a row *)




(** C4: the article class stores its plain attribute [name] in column
    [name_col], and object 2 holds a value for it.  [getData] returns the
    instance dictionary as it is: the value is under the attribute name and
    the row has no entry under the column name.  The column name is the
    name the class's own insert statement binds ([%(name_col)s]) and the
    name [update] looks the value up under, so [update] of that object
    raises [KeyError]. *)
Theorem getData_plain_column_missing :
  odict.values (Persistence.columns Sample.Article) = [Sample.name_column]
  ∧ is_plain Sample.name_column = true
  ∧ getattr Sample.objects 2 (Column.attr Sample.name_column) = Ok (VStr "pen")
  ∧ Convertor.getData_in Sample.article_convertor Sample.objects 2
    = Ok {[ Some "name" := VStr "pen" ]}
  ∧ ({[ Some "name" := VStr "pen" ]} : gmap name Value)
      !! Column.col Sample.name_column = None
  ∧ Convertor.init Sample.Article = Ok Sample.article_convertor
  ∧ Convertor.q_add (Convertor.queries Sample.article_convertor)
    = "insert into " +:+ dquote +:+ "article" +:+ dquote +:+ " (__key__, "
      +:+ dquote +:+ "name_col" +:+ dquote
      +:+ ") values (%(__key__)s, %(name_col)s)"
  ∧ (Convertor.update Sample.article_convertor 2 Sample.connected).1
    = Raise KeyError.
Proof. vm_compute. done. Qed.



(** ** Compiling the statements of a class *)






(** ** The check on many-to-many associations *)

Lemma init_asc_Ok acc c acc' :
  Convertor.init_asc acc c = Ok acc' →
  ∃ a, Column.association c = Some a ∧ asc_col_vcls a = Column.vcls c
       ∧ acc' = (odict.set acc.1 (asc_id a) (link_queries c),
                 odict.set acc.2 (asc_id a) (Column.col c, Column.vcol c)).
Proof.
  unfold Convertor.init_asc. destruct (Column.association c) as [a|]; [|done].
  case_bool_decide; [|done]. intros [= <-]. by exists a.
Qed.

Lemma init_asc_Raise acc c e :
  Convertor.init_asc acc c = Raise e → own_association_fails e c.
Proof.
  unfold Convertor.init_asc, own_association_fails.
  destruct (Column.association c) as [a|]; [|intros [= <-]; by left].
  case_bool_decide; [done|]. intros [= <-]. right. by exists a.
Qed.

Lemma init_ascs_Ok (S : Column.t → Prop) acc cols acc' :
  Convertor.init_ascs acc cols = Ok acc' →
  filed_from S acc → all_filed S acc →
  Forall own_association_ok cols
  ∧ filed_from (λ c, S c ∨ c ∈ cols) acc'
  ∧ all_filed (λ c, S c ∨ c ∈ cols) acc'.
Proof.
  revert S acc. induction cols as [|c cols IH]; simpl; intros S acc Hinit Hfrom Hall.
  - injection Hinit as <-. split; [constructor|]. split.
    + intros i q Hq. destruct (Hfrom i q Hq) as (c & a & ? & ?).
      exists c, a. split; [by left|done].
    + intros c a [?|?%elem_of_nil] ?; [by eapply Hall|done].
  - destruct (Convertor.init_asc acc c) as [acc1|e] eqn:Hstep; [|done].
    apply init_asc_Ok in Hstep as (a & Ha & Hv & ->).
    destruct (IH (λ x, S x ∨ x = c) _ Hinit) as (Hok & Hfrom' & Hall').
    + intros i q. simpl. rewrite !odict_get_set.
      destruct (decide (asc_id a = i)) as [Hi|Hi].
      * intros [= <-]. exists c, a. split; [by right|done].
      * intros Hq. destruct (Hfrom i q Hq) as (c' & a' & ? & ?).
        exists c', a'. split; [by left|done].
    + intros c' a' [Hc'| ->] Ha'; simpl; rewrite odict_get_set.
      * destruct (decide (asc_id a = asc_id a')); [done|by eapply Hall].
      * rewrite Ha in Ha'. injection Ha' as <-. by rewrite decide_True.
    + split; [constructor; [by exists a|done]|]. split.
      * intros i q Hq. destruct (Hfrom' i q Hq) as (c' & a' & Hc' & ?).
        exists c', a'. split; [|done].
        destruct Hc' as [[?| ->]|?]; [by left|right; left|right; by right].
      * intros c' a' Hc'. apply Hall'.
        destruct Hc' as [?|[->|?]%elem_of_cons]; [by left; left|by left; right|by right].
Qed.

Lemma init_ascs_Raise acc cols e :
  Convertor.init_ascs acc cols = Raise e → Exists (own_association_fails e) cols.
Proof.
  revert acc. induction cols as [|c cols IH]; simpl; intros acc Hinit; [done|].
  destruct (Convertor.init_asc acc c) as [acc1|e'] eqn:Hstep.
  - apply Exists_cons_tl. by eapply IH.
  - injection Hinit as ->. apply Exists_cons_hd. by eapply init_asc_Raise.
Qed.

Lemma init_ascs_app acc l1 l2 :
  Convertor.init_ascs acc (l1 ++ l2)
  = match Convertor.init_ascs acc l1 with
    | Ok acc1 => Convertor.init_ascs acc1 l2
    | Raise e => Raise e
    end.
Proof.
  revert acc. induction l1 as [|c l1 IH]; intros acc; [done|].
  cbn [app Convertor.init_ascs].
  destruct (Convertor.init_asc acc c) as [acc1|e]; [apply IH|done].
Qed.

Lemma init_ascs_untouched acc cols acc' (i : nat) :
  Convertor.init_ascs acc cols = Ok acc' →
  (∀ c a, c ∈ cols → Column.association c = Some a → asc_id a ≠ i) →
  odict.get acc'.1 i = odict.get acc.1 i
  ∧ odict.get acc'.2 i = odict.get acc.2 i.
Proof.
  revert acc. induction cols as [|c cols IH]; simpl; intros acc Hinit Hother.
  - by injection Hinit as <-.
  - destruct (Convertor.init_asc acc c) as [acc1|e] eqn:Hstep; [|done].
    apply init_asc_Ok in Hstep as (a & Ha & _ & ->).
    destruct (IH _ Hinit) as [H1 H2].
    { intros c' a' Hc'. apply Hother. by right. }
    rewrite H1, H2. cbn [fst snd]. rewrite !odict_get_set.
    assert (Hne : asc_id a ≠ i) by (apply (Hother c a); [left|done]).
    by rewrite !decide_False.
Qed.

Lemma init_ascs_last acc l1 c l2 a acc' :
  Convertor.init_ascs acc (l1 ++ c :: l2) = Ok acc' →
  Column.association c = Some a →
  (∀ c' a', c' ∈ l2 → Column.association c' = Some a' → asc_id a' ≠ asc_id a) →
  odict.get acc'.1 (asc_id a) = Some (link_queries c)
  ∧ odict.get acc'.2 (asc_id a) = Some (Column.col c, Column.vcol c).
Proof.
  rewrite init_ascs_app. intros Hinit Ha Hlater.
  destruct (Convertor.init_ascs acc l1) as [acc1|e]; [|done].
  cbn [Convertor.init_ascs] in Hinit.
  destruct (Convertor.init_asc acc1 c) as [acc2|e] eqn:Hstep; [|done].
  apply init_asc_Ok in Hstep as (a0 & Ha0 & _ & ->).
  rewrite Ha in Ha0. injection Ha0 as <-.
  destruct (init_ascs_untouched _ _ _ (asc_id a) Hinit Hlater) as [H1 H2].
  rewrite H1, H2. cbn [fst snd]. rewrite !odict_get_set.
  by rewrite !decide_True.
Qed.

(** C5 as stated does not hold: [Employee.orders] and [EOrder.employees]
    mirror each other and name different link relations, and the
    statements of [Employee] are compiled all the same. *)
Lemma mismatched_link_accepted :
  odict.get (Persistence.columns Sample.Employee) (Some "orders") = Some Sample.orders
  ∧ Column.is_many_to_many Sample.orders = true
  ∧ Column.is_bidir Sample.orders = true
  ∧ Column.vcls Sample.orders = Some "EOrder"
  ∧ Sample.classes !! "EOrder" = Some Sample.EOrder
  ∧ odict.get (Persistence.columns Sample.EOrder) (Column.vattr Sample.orders)
    = Some Sample.employees
  ∧ mirrors Sample.orders Sample.employees = false
  ∧ is_Ok (Convertor.init Sample.Employee) = true
  ∧ is_Ok (Convertor.init Sample.EOrder) = true.
Proof. vm_compute. done. Qed.

(** C5, amended: during query compilation each many-to-many descriptor is
    checked against its own association object only.  Compilation raises
    [AttributeError] when such a descriptor has no association object and
    [AssertionError] when the descriptor its association is bound to
    references another class; it never raises [AssociationError] and never
    looks at the partner class.  When it returns, every many-to-many
    descriptor passed that check, and the three link statements and the
    column pair filed under an association are those of the last
    many-to-many descriptor, in enumeration order, bound to it: the insert
    [insert into "<link>" ("<col>", "<vcol>") values(%s, %s)], the delete
    [delete from "<link>" where "<col>" = %s and "<vcol>" = %s] and the
    select [select "<col>", "<vcol>" from "<link>"] of that descriptor's
    link relation and column pair.  So every many-to-many descriptor whose
    association no later one shares has its own statements filed, and
    nothing is filed that is not built from such a descriptor. *)
Theorem init_checks_own_association (cls0 : Persistence.t) :
  let mtm := filter (λ c, Column.is_many_to_many c = true)
               (odict.values (Persistence.columns cls0)) in
  match Convertor.init cls0 with
  | Ok conv =>
      Convertor.mtm_ascs conv = mtm
      ∧ Forall own_association_ok mtm
      ∧ all_filed (λ c, c ∈ mtm)
          (Convertor.q_asc (Convertor.queries conv), Convertor.asc_cols conv)
      ∧ filed_from (λ c, c ∈ mtm)
          (Convertor.q_asc (Convertor.queries conv), Convertor.asc_cols conv)
      ∧ (∀ l1 c l2 a,
           mtm = l1 ++ c :: l2 →
           Column.association c = Some a →
           (∀ c' a', c' ∈ l2 → Column.association c' = Some a' →
                     asc_id a' ≠ asc_id a) →
           odict.get (Convertor.q_asc (Convertor.queries conv)) (asc_id a)
           = Some (Convertor.mkPairQueries
                     ("insert into " +:+ (dquote +:+ fmt (Column.link c) +:+ dquote)
                      +:+ " ("
                      +:+ ((dquote +:+ fmt (Column.col c) +:+ dquote) +:+ ", "
                           +:+ (dquote +:+ fmt (Column.vcol c) +:+ dquote))
                      +:+ ") values(%s, %s)")
                     ("delete from " +:+ (dquote +:+ fmt (Column.link c) +:+ dquote)
                      +:+ " where "
                      +:+ ((dquote +:+ fmt (Column.col c) +:+ dquote) +:+ " = %s")
                      +:+ " and "
                      +:+ ((dquote +:+ fmt (Column.vcol c) +:+ dquote) +:+ " = %s"))
                     ("select "
                      +:+ ((dquote +:+ fmt (Column.col c) +:+ dquote) +:+ ", "
                           +:+ (dquote +:+ fmt (Column.vcol c) +:+ dquote))
                      +:+ " from " +:+ (dquote +:+ fmt (Column.link c) +:+ dquote)))
           ∧ odict.get (Convertor.asc_cols conv) (asc_id a)
             = Some (Column.col c, Column.vcol c))
  | Raise e =>
      e ≠ AssociationError ∧ Exists (own_association_fails e) mtm
  end.
Proof.
  intros mtm. unfold Convertor.init. fold mtm.
  destruct (Convertor.init_ascs ([], []) mtm) as [[qs acs]|e] eqn:Hinit; simpl.
  - destruct (init_ascs_Ok (λ _, False) _ _ _ Hinit) as (Hok & Hfrom & Hall);
      [by intros i q [=]|by intros c a []|].
    split; [done|]. split; [done|]. split; [|split].
    + intros c a Hc. apply Hall. by right.
    + intros i q Hq. destruct (Hfrom i q Hq) as (c & a & [[]|Hc] & ?).
      by exists c, a.
    + intros l1 c l2 a Hsplit Ha Hlater. rewrite Hsplit in Hinit.
      exact (init_ascs_last _ _ _ _ _ _ Hinit Ha Hlater).
  - apply init_ascs_Raise in Hinit. split; [|done].
    apply Exists_exists in Hinit as (c & _ & [[_ ->]|(a & _ & _ & ->)]); done.
Qed.

(** When two many-to-many descriptors are bound to one association, the
    statements filed under it are those of the second: [Two] reads and
    writes its pairs in [link_two] only. *)
Example shared_association_last_descriptor :
  odict.values (Persistence.columns Sample.Two)
    = [Sample.first_link; Sample.second_link]
  ∧ Column.association Sample.first_link = Column.association Sample.second_link
  ∧ Convertor.init Sample.Two = Ok Sample.two_convertor
  ∧ Convertor.q_getPair
      <$> odict.get (Convertor.q_asc (Convertor.queries Sample.two_convertor)) 60
    = Some ("select " +:+ dquote +:+ "two" +:+ dquote +:+ ", "
            +:+ dquote +:+ "t" +:+ dquote
            +:+ " from " +:+ dquote +:+ "link_two" +:+ dquote)
  ∧ odict.keys (Convertor.q_asc (Convertor.queries Sample.two_convertor)) = [60].
Proof. vm_compute. done. Qed.

Lemma init_checks_own_association_witness :
  Convertor.init Sample.Employee = Ok Sample.employee_convertor
  ∧ filter (λ c, Column.is_many_to_many c = true)
      (odict.values (Persistence.columns Sample.Employee)) = [Sample.orders]
  ∧ Column.association Sample.orders = Some (mkAssociation 31 (Some "EOrder"))
  ∧ Convertor.q_addPair
      <$> odict.get (Convertor.q_asc (Convertor.queries Sample.employee_convertor)) 31
    = Some ("insert into " +:+ dquote +:+ "employee_orders" +:+ dquote +:+ " ("
            +:+ dquote +:+ "employee" +:+ dquote +:+ ", "
            +:+ dquote +:+ "order" +:+ dquote +:+ ") values(%s, %s)")
  ∧ odict.get (Convertor.asc_cols Sample.employee_convertor) 31
    = Some (Some "employee", Some "order").
Proof.
  pose proof (init_checks_own_association Sample.Employee) as T.
  cbv zeta in T.
  change (Convertor.init Sample.Employee) with (Ok Sample.employee_convertor) in T.
  cbv iota beta in T.
  destruct T as (_ & _ & _ & _ & T).
  destruct (T [] Sample.orders [] (mkAssociation 31 (Some "EOrder")))
    as [T1 T2].
  - vm_compute. reflexivity.
  - reflexivity.
  - intros c' a' Hc'. by apply elem_of_nil in Hc'.
  - split; [reflexivity|]. split; [vm_compute; reflexivity|].
    split; [reflexivity|]. split.
    + change (asc_id (mkAssociation 31 (Some "EOrder"))) with 31 in T1.
      rewrite T1. vm_compute. reflexivity.
    + exact T2.
Defined.

(** * Further properties *)

(** ** More on ordered mappings *)
Section odict_more.
Context {K V : Type} `{EqDecision K}.
Implicit Types (d : list (K * V)) (k : K) (v : V).

Lemma odict_set_fresh d k v :
  k ∉ odict.keys d → odict.set d k v = d ++ [(k, v)].
Proof.
  unfold odict.keys. induction d as [|[k0 v0] d IH]; simpl; intros Hk; [done|].
  rewrite not_elem_of_cons in Hk. destruct Hk as [Hne Hk].
  rewrite decide_False by done. by rewrite IH.
Qed.

Lemma odict_elem_set d k v k' v' :
  (k', v') ∈ odict.set d k v → (k' = k ∧ v' = v) ∨ (k', v') ∈ d.
Proof.
  induction d as [|[k0 v0] d IH]; simpl.
  - intros [= -> ->]%list_elem_of_singleton. by left.
  - destruct (decide (k0 = k)) as [->|Hne].
    + intros [[= -> ->]|Hin]%elem_of_cons; [by left|]. right. by right.
    + intros [[= -> ->]|Hin]%elem_of_cons; [right; left|].
      destruct (IH Hin) as [?|?]; [by left|]. right. by right.
Qed.

Lemma odict_get_update d d2 k :
  NoDup (odict.keys d2) →
  odict.get (odict.update d d2) k
  = match odict.get d2 k with Some v => Some v | None => odict.get d k end.
Proof.
  intros Hnd. destruct (odict.get d2 k) as [v|] eqn:E.
  - rewrite <- E. apply odict_get_update_own; [done|].
    apply odict_get_is_Some. by rewrite E.
  - apply odict_get_update_fresh. by apply odict_get_None.
Qed.

Lemma odict_update_app d d2 :
  NoDup (odict.keys (d ++ d2)) → odict.update d d2 = d ++ d2.
Proof.
  unfold odict.update. revert d.
  induction d2 as [|[k v] d2 IH]; simpl; intros d Hnd.
  - by rewrite app_nil_r.
  - assert (Hk : k ∉ odict.keys d).
    { unfold odict.keys in *. rewrite fmap_app in Hnd. simpl in Hnd.
      apply NoDup_app in Hnd as (_ & Hdis & _). intros Hin.
      apply (Hdis k Hin). left. }
    rewrite (odict_set_fresh d k v Hk). rewrite IH.
    + by rewrite <- app_assoc.
    + by rewrite <- app_assoc.
Qed.

End odict_more.

(** ** Making a class *)

Lemma new_Ok name0 bases0 data0 relation0 sequencer0 c :
  Persistence.new name0 bases0 data0 relation0 sequencer0 = Ok c →
  Persistence.defaults c
  = merge_defaults (default ∅ (Persistence.d_defaults data0)) bases0
  ∧ Persistence.bases c = bases0.
Proof.
  unfold Persistence.new. simpl. destruct (negb (truthy _)); [done|].
  by intros [= <-].
Qed.

Lemma merge_defaults_absent acc bs k :
  (∀ b, b ∈ bs → Persistence.has_defaults b = true →
        Persistence.defaults b !! k = None) →
  merge_defaults acc bs !! k = acc !! k.
Proof.
  unfold merge_defaults. revert acc.
  induction bs as [|b bs IH]; simpl; intros acc Hbs; [done|].
  rewrite IH by (intros b' Hb'; apply Hbs; by right).
  destruct (Persistence.has_defaults b) eqn:E; [|done].
  rewrite lookup_union_r; [done|]. apply Hbs; [left|done].
Qed.

(** X1: the class made by [__new__] has every default of every base that
    has a [defaults] attribute, configured or not.  For a name that
    several such bases default, the last of them in the list of bases
    decides, also against a default the caller supplied in [data]; a name
    no such base defaults keeps what [data] supplied. *)
Theorem new_merges_defaults name0 bases0 data0 relation0 sequencer0 c :
  Persistence.new name0 bases0 data0 relation0 sequencer0 = Ok c →
  (∀ k, (∀ b, b ∈ bases0 → Persistence.has_defaults b = true →
              Persistence.defaults b !! k = None) →
        Persistence.defaults c !! k
        = default ∅ (Persistence.d_defaults data0) !! k)
  ∧ (∀ l1 b l2 k v,
       bases0 = l1 ++ b :: l2 →
       Persistence.has_defaults b = true →
       Persistence.defaults b !! k = Some v →
       (∀ b', b' ∈ l2 → Persistence.has_defaults b' = true →
              Persistence.defaults b' !! k = None) →
       Persistence.defaults c !! k = Some v).
Proof.
  intros [Hd _]%new_Ok. rewrite Hd. split.
  - intros k Hk. by apply merge_defaults_absent.
  - intros l1 b l2 k v -> Hb Hv Hl2. unfold merge_defaults.
    rewrite fold_left_app. simpl. rewrite Hb.
    fold (merge_defaults (default ∅ (Persistence.d_defaults data0)) l1).
    set (acc := merge_defaults _ l1).
    fold (merge_defaults (Persistence.defaults b ∪ acc) l2).
    rewrite merge_defaults_absent by done.
    by apply lookup_union_Some_l.
Qed.

(** ** More on registering descriptors *)

Lemma addColumn_Ok self attr col vcls link vcol vattr update0 self' :
  Persistence.addColumn self attr col vcls link vcol vattr update0 = (Ok (), self') →
  truthy attr = true
  ∧ odict.mem (Persistence.columns self) attr = false
  ∧ Persistence.columns self'
    = odict.set (Persistence.columns self) attr
        (requested attr col vcls link vcol vattr true)
  ∧ Persistence.bases self' = Persistence.bases self.
Proof.
  rewrite addColumn_outcome. simpl.
  destruct (truthy attr); simpl; [|done].
  destruct (odict.mem _ attr); [done|].
  by intros [= <-].
Qed.

(** X2: once [addColumn] has registered an attribute, a further call for
    the same attribute, whatever its other arguments, raises
    [ColumnMappingError] and leaves the descriptor registered first in
    place. *)
Theorem addColumn_twice self attr col vcls link vcol vattr update0 self'
    col2 vcls2 link2 vcol2 vattr2 update2 :
  Persistence.addColumn self attr col vcls link vcol vattr update0 = (Ok (), self') →
  (Persistence.addColumn self' attr col2 vcls2 link2 vcol2 vattr2 update2).1
    = Raise (ColumnMappingError "column is defined")
  ∧ Persistence.columns
      (Persistence.addColumn self' attr col2 vcls2 link2 vcol2 vattr2 update2).2
    = Persistence.columns self'
  ∧ odict.get
      (Persistence.columns
         (Persistence.addColumn self' attr col2 vcls2 link2 vcol2 vattr2 update2).2)
      attr
    = Some (requested attr col vcls link vcol vattr true).
Proof.
  intros (Htruthy & _ & Hcols & _)%addColumn_Ok.
  assert (Hget : odict.get (Persistence.columns self') attr
                 = Some (requested attr col vcls link vcol vattr true)).
  { rewrite Hcols, odict_get_set. by rewrite decide_True. }
  rewrite addColumn_outcome. simpl. rewrite Htruthy. simpl.
  unfold odict.mem. rewrite Hget. simpl. by rewrite Hget.
Qed.

(** X3: [addColumn] keeps the [columns] mapping well formed, whether it
    returns or raises: no attribute is listed twice and every descriptor
    is filed under its own attribute name.  The descriptors of the other
    attributes are untouched and none is dropped. *)
Theorem addColumn_keeps_columns_wf self attr col vcls link vcol vattr update0 :
  columns_wf (Persistence.columns self) →
  columns_wf
    (Persistence.columns
       (Persistence.addColumn self attr col vcls link vcol vattr update0).2)
  ∧ (∀ a, a ≠ attr →
       odict.get
         (Persistence.columns
            (Persistence.addColumn self attr col vcls link vcol vattr update0).2) a
       = odict.get (Persistence.columns self) a)
  ∧ (∀ a, a ∈ odict.keys (Persistence.columns self) →
       a ∈ odict.keys
             (Persistence.columns
                (Persistence.addColumn self attr col vcls link vcol vattr update0).2)).
Proof.
  intros [Hnd Hattr].
  destruct (Persistence.addColumn self attr col vcls link vcol vattr update0)
    as [[[]|e] self'] eqn:E; simpl.
  - apply addColumn_Ok in E as (_ & _ & -> & _). split; [split|split].
    + by apply odict_NoDup_set.
    + intros k c [[-> ->]|Hin]%odict_elem_set; [|by apply Hattr].
      unfold requested, described. by destruct (Column.is_many _).
    + intros a Ha. rewrite odict_get_set. by rewrite decide_False.
    + intros a Ha. apply odict_keys_set. by right.
  - assert (Hsame : Persistence.columns self' = Persistence.columns self).
    { revert E. rewrite addColumn_outcome. simpl.
      destruct (negb (truthy attr)); [by intros [= _ <-]|].
      destruct (odict.mem _ attr); [by intros [= _ <-]|done]. }
    rewrite Hsame. done.
Qed.

(** X4: [addColumn] looks for the attribute among the class's own columns
    only.  When it returns, [getColumns()] gives the new descriptor for
    the attribute, also when a base class declares a descriptor of that
    name, and gives for every other attribute what it gave before. *)
Theorem addColumn_shadows_inherited self attr col vcls link vcol vattr update0 self' :
  NoDup (odict.keys (Persistence.columns self)) →
  Persistence.addColumn self attr col vcls link vcol vattr update0 = (Ok (), self') →
  odict.get (Persistence.getColumns self') attr
    = Some (requested attr col vcls link vcol vattr true)
  ∧ (∀ a, a ≠ attr →
       odict.get (Persistence.getColumns self') a
       = odict.get (Persistence.getColumns self) a).
Proof.
  intros Hnd (_ & _ & Hcols & Hbases)%addColumn_Ok.
  rewrite !getColumns_unfold, Hbases, Hcols.
  split.
  - rewrite odict_get_update by (by apply odict_NoDup_set).
    rewrite odict_get_set. by rewrite decide_True.
  - intros a Ha.
    rewrite !odict_get_update by (done || by apply odict_NoDup_set).
    rewrite odict_get_set. by rewrite decide_False.
Qed.

(** X5: whether it returns or raises, [addColumn] leaves the name, the
    bases, the relation, the sequencer, the cache class and the key slot of
    the class as they were, the class keeps its [defaults] attribute, and no
    default changes other than those of the attribute and of the column. *)
Theorem addColumn_frame self attr col vcls link vcol vattr update0 :
  let self' := (Persistence.addColumn self attr col vcls link vcol vattr update0).2 in
  Persistence.name_ self' = Persistence.name_ self
  ∧ Persistence.is_persistence self' = Persistence.is_persistence self
  ∧ Persistence.bases self' = Persistence.bases self
  ∧ Persistence.relation self' = Persistence.relation self
  ∧ Persistence.sequencer self' = Persistence.sequencer self
  ∧ Persistence.cache self' = Persistence.cache self
  ∧ Persistence.key self' = Persistence.key self
  ∧ Persistence.has_defaults self' = Persistence.has_defaults self
  ∧ (∀ k, k ≠ attr → k ≠ Column.col (Column.init attr col) →
          Persistence.defaults self' !! k = Persistence.defaults self !! k).
Proof.
  simpl. rewrite addColumn_outcome. simpl.
  set (b := _ && negb _).
  assert (Hd : ∀ k, k ≠ attr →
    k ≠ match col with Some _ => col | None => attr end →
    (if b then <[match col with Some _ => col | None => attr end := VNone]>
                 (<[attr := VNone]> (Persistence.defaults self))
     else <[attr := VNone]> (Persistence.defaults self)) !! k
    = Persistence.defaults self !! k).
  { intros k H1 H2. destruct b; by rewrite ?lookup_insert_ne. }
  destruct (negb (truthy attr)); [done|].
  by destruct (odict.mem _ attr).
Qed.

Lemma init_ascs_checks acc cols acc' :
  Convertor.init_ascs acc cols = Ok acc' → Forall own_association_ok cols.
Proof.
  revert acc. induction cols as [|c cols IH]; simpl; intros acc Hinit; [done|].
  destruct (Convertor.init_asc acc c) as [acc1|e] eqn:Hstep; [|done].
  apply init_asc_Ok in Hstep as (a & Ha & Hv & _).
  constructor; [by exists a|by eapply IH].
Qed.

(** X6: a many-to-many descriptor as [addColumn] registers it has no
    association object, so the statements of the class cannot be compiled
    until one is bound to it: [Convertor.__init__] raises. *)
Theorem addColumn_many_to_many_unbound self attr col vcls link vcol vattr update0 self' :
  Persistence.addColumn self attr col (Some vcls) (Some link) (Some vcol) vattr update0
    = (Ok (), self') →
  is_Ok (Convertor.init self') = false.
Proof.
  intros (Htruthy & _ & Hcols & _)%addColumn_Ok.
  set (d := requested attr col (Some vcls) (Some link) (Some vcol) vattr true) in *.
  assert (Hmtm : Column.is_many_to_many d = true).
  { unfold d, requested, described. destruct attr as [a|]; [|done].
    destruct col; simpl; by destruct vattr. }
  assert (Hnone : Column.association d = None).
  { unfold d, requested, described. by destruct (Column.is_many _). }
  assert (Hin : d ∈ filter (λ c, Column.is_many_to_many c = true)
                       (odict.values (Persistence.columns self'))).
  { apply list_elem_of_filter. split; [done|].
    unfold odict.values. apply list_elem_of_fmap. exists (attr, d).
    split; [done|]. apply odict_get_Some_elem.
    rewrite Hcols, odict_get_set. by rewrite decide_True. }
  unfold Convertor.init.
  destruct (Convertor.init_ascs _ _) as [[qs acs]|e] eqn:Hinit; [|done].
  apply init_ascs_checks in Hinit. rewrite Forall_forall in Hinit.
  destruct (Hinit d Hin) as (a & Ha & _). congruence.
Qed.

(** ** More on inherited columns *)

Lemma inherit_unconfigured cols bs :
  (∀ b, b ∈ bs → Persistence.is_persistence b = false) → inherit cols bs = cols.
Proof.
  unfold inherit. revert cols.
  induction bs as [|b bs IH]; simpl; intros cols Hbs; [done|].
  rewrite (Hbs b) by left. apply IH. intros b' Hb'. apply Hbs. by right.
Qed.

Lemma inherit_absent cols bs a :
  (∀ b, b ∈ bs → Persistence.is_persistence b = true →
        a ∉ odict.keys (Persistence.getColumns b)) →
  odict.get (inherit cols bs) a = odict.get cols a.
Proof.
  unfold inherit. revert cols.
  induction bs as [|b bs IH]; simpl; intros cols Hbs; [done|].
  rewrite IH by (intros b' Hb'; apply Hbs; by right).
  destruct (Persistence.is_persistence b) eqn:E; [|done].
  apply odict_get_update_fresh. apply Hbs; [left|done].
Qed.

(** X7: for a class none of whose bases is configured, [getColumns()] has
    the entries of the class's own [columns] and no other: the same
    names, and under each name the same descriptor. *)
Theorem getColumns_without_configured_bases (c : Persistence.t) :
  NoDup (odict.keys (Persistence.columns c)) →
  (∀ b, b ∈ Persistence.bases c → Persistence.is_persistence b = false) →
  (∀ a, odict.get (Persistence.getColumns c) a
        = odict.get (Persistence.columns c) a)
  ∧ (∀ a, a ∈ odict.keys (Persistence.getColumns c)
          ↔ a ∈ odict.keys (Persistence.columns c))
  ∧ (∀ a d, (a, d) ∈ Persistence.getColumns c ↔ (a, d) ∈ Persistence.columns c).
Proof.
  intros Hnd Hbs.
  assert (Hget : ∀ a, odict.get (Persistence.getColumns c) a
                      = odict.get (Persistence.columns c) a).
  { intros a. rewrite getColumns_unfold, inherit_unconfigured by done.
    rewrite odict_get_update by done. by destruct (odict.get _ a). }
  split; [done|]. split.
  - intros a. by rewrite <- !odict_get_is_Some, Hget.
  - intros a d. split; intros Hin.
    + apply odict_get_Some_elem. rewrite <- Hget.
      apply odict_elem_get; [apply getColumns_NoDup|done].
    + apply odict_get_Some_elem. rewrite Hget. by apply odict_elem_get.
Qed.

(** X8: a name the class does not declare itself is resolved through the
    bases from right to left: the last configured base whose columns have
    the name supplies the descriptor, whatever the bases before it
    declare. *)
Theorem getColumns_last_base_wins (c b : Persistence.t)
    (l1 l2 : list Persistence.t) (a : name) :
  Persistence.bases c = l1 ++ b :: l2 →
  Persistence.is_persistence b = true →
  a ∉ odict.keys (Persistence.columns c) →
  a ∈ odict.keys (Persistence.getColumns b) →
  (∀ b', b' ∈ l2 → Persistence.is_persistence b' = true →
         a ∉ odict.keys (Persistence.getColumns b')) →
  odict.get (Persistence.getColumns c) a = odict.get (Persistence.getColumns b) a.
Proof.
  intros Hbases Hb Hown Hin Hl2.
  rewrite (getColumns_unfold c), odict_get_update_fresh by done.
  rewrite Hbases. unfold inherit. rewrite fold_left_app. simpl. rewrite Hb.
  set (acc := fold_left _ l1 []).
  fold (inherit (odict.update acc (Persistence.getColumns b)) l2).
  rewrite inherit_absent by done.
  apply odict_get_update_own; [apply getColumns_NoDup|done].
Qed.

(** ** More on the motor *)
Section motor_more.
Context {W : Type}.
Implicit Types (s : Store W) (q : string).

Ltac logs_via l :=
  apply (logs_bind _ _ l);
  [first [apply logs_the_db_conn | apply logs_call] | intros ?].

Lemma logs_delete q key :
  logs (W:=W) (Motor.delete q key) [EvCursor; EvExecute q (PTuple [key])].
Proof.
  unfold Motor.delete. logs_via (@nil Event). logs_via [EvCursor]. apply logs_call.
Qed.

Lemma logs_executeMany q pairs :
  logs (W:=W) (Motor.executeMany q pairs) [EvCursor; EvExecuteMany q pairs].
Proof.
  unfold Motor.executeMany. logs_via (@nil Event). logs_via [EvCursor].
  apply logs_call.
Qed.

Lemma logs_commit : logs (W:=W) Motor.commit [EvCommit].
Proof. unfold Motor.commit. logs_via (@nil Event). apply logs_call. Qed.

Lemma logs_rollback : logs (W:=W) Motor.rollback [EvRollback].
Proof. unfold Motor.rollback. logs_via (@nil Event). apply logs_call. Qed.

Lemma logs_row_end dbc (row : option (list Value)) :
  logs (W:=W)
    match Motor.row_truthy row with
    | Some r => ret (Some r, Motor.RowsOpen dbc)
    | None => ret (None, Motor.RowsDone)
    end [].
Proof. destruct (Motor.row_truthy row); apply logs_pure. Qed.

Lemma logs_getData_next g :
  ∃ full, logs (W:=W) (Motor.getData_next g) full.
Proof.
  destruct g as [q|dbc|]; simpl.
  - exists [EvCursor; EvExecute q PNone; EvFetchone].
    logs_via (@nil Event). logs_via [EvCursor]. logs_via [EvExecute q PNone].
    logs_via [EvFetchone]. apply logs_row_end.
  - exists [EvFetchone]. logs_via [EvFetchone]. apply logs_row_end.
  - exists []. apply logs_pure.
Qed.

Lemma logs_frame {A} (m : M W A) full s :
  logs m full → motor (m s).2 = motor s ∧ heap (m s).2 = heap s.
Proof. intros H. by destruct (H s) as (evs & (? & ? & _) & _). Qed.

(** X9: no query operation of the motor opens, closes or replaces the
    connection, and none touches an application object: after a row
    request, an insert, an update, a delete, a batch execution, a key
    allocation, a commit or a rollback, returned or raised, the motor and
    the heap are what they were. *)
Theorem query_operations_frame s q (data : gmap name Value) (row : list Value)
    (key : Value) (pairs : list (list Value)) (g : Motor.rows) :
  (motor (Motor.getData_next g s).2 = motor s
   ∧ heap (Motor.getData_next g s).2 = heap s)
  ∧ (motor (Motor.add q data s).2 = motor s ∧ heap (Motor.add q data s).2 = heap s)
  ∧ (motor (Motor.update q row key s).2 = motor s
     ∧ heap (Motor.update q row key s).2 = heap s)
  ∧ (motor (Motor.delete q key s).2 = motor s ∧ heap (Motor.delete q key s).2 = heap s)
  ∧ (motor (Motor.executeMany q pairs s).2 = motor s
     ∧ heap (Motor.executeMany q pairs s).2 = heap s)
  ∧ (motor (Motor.getKey q s).2 = motor s ∧ heap (Motor.getKey q s).2 = heap s)
  ∧ (motor (Motor.commit s).2 = motor s ∧ heap (Motor.commit s).2 = heap s)
  ∧ (motor (Motor.rollback s).2 = motor s ∧ heap (Motor.rollback s).2 = heap s).
Proof.
  destruct (logs_getData_next g) as [full Hnext].
  split; [by eapply logs_frame|].
  split; [eapply logs_frame, logs_add|].
  split; [eapply logs_frame, logs_update|].
  split; [eapply logs_frame, logs_delete|].
  split; [eapply logs_frame, logs_executeMany|].
  split; [eapply logs_frame, logs_getKey|].
  split; [eapply logs_frame, logs_commit|eapply logs_frame, logs_rollback].
Qed.

(** X10: [closeDBConn] forgets the connection only when the driver's
    [close] returned.  After that a second [closeDBConn] raises
    [AttributeError] without reaching the driver.  When [close] raises, or
    when there is no connection, the motor keeps what it had. *)
Theorem closeDBConn_outcomes s :
  match Motor.closeDBConn s with
  | (Ok _, s') =>
      is_Some (db_conn (motor s))
      ∧ db_conn (motor s') = None
      ∧ db_module (motor s') = db_module (motor s)
      ∧ events_since s s' = [EvClose]
      ∧ Motor.closeDBConn s' = (Raise AttributeError, s')
  | (Raise e, s') =>
      motor s' = motor s
      ∧ (db_conn (motor s) = None → e = AttributeError ∧ s' = s)
  end.
Proof.
  unfold Motor.closeDBConn, bind, the_db_conn, call, set_db_conn.
  destruct (db_conn (motor s)) as [c|] eqn:Hc; [|done].
  destruct (close (db_module (motor s)) c (world s)) as [[[]|e] w]; simpl.
  - split; [done|]. split; [done|]. split; [done|].
    split; [by apply events_since_app|done].
  - done.
Qed.

(** X11: [connectDB] records the connection the driver hands out and makes
    that one call on the driver, also when a connection is already
    recorded, which is then replaced without being closed.  When [connect]
    raises, the motor keeps what it had. *)
Theorem connectDB_outcomes s (dsn : string) :
  events_since s (Motor.connectDB dsn s).2 = [EvConnect dsn]
  ∧ heap (Motor.connectDB dsn s).2 = heap s
  ∧ match Motor.connectDB dsn s with
    | (Ok _, s') =>
        ∃ c, (connect (db_module (motor s)) dsn (world s)).1 = Ok c
             ∧ motor s' = mkMotor (db_module (motor s)) (Some c)
    | (Raise e, s') =>
        (connect (db_module (motor s)) dsn (world s)).1 = Raise e
        ∧ motor s' = motor s
    end.
Proof.
  unfold Motor.connectDB, bind, the_db_conn, call, set_db_conn, ret.
  destruct (connect (db_module (motor s)) dsn (world s)) as [[c|e] w]; simpl.
  - split; [by apply events_since_app|]. split; [done|]. by exists c.
  - split; [by apply events_since_app|]. done.
Qed.

End motor_more.

(** ** Row sequences *)
Section rows_facts.
Context {W : Type}.
Implicit Types (s : Store W) (q : string).

Lemma getData_next_open dbc s r g' s' :
  Motor.getData_next (Motor.RowsOpen dbc) s = (Ok (r, g'), s') →
  extends s s' [EvFetchone]
  ∧ ((∃ v row, r = Some (v :: row) ∧ g' = Motor.RowsOpen dbc)
     ∨ (r = None ∧ g' = Motor.RowsDone)).
Proof.
  simpl. unfold bind.
  pose proof (call_extends EvFetchone (λ d, fetchone d dbc) s) as H.
  destruct (call EvFetchone _ s) as [[row|e] s1]; [|done]. simpl in H.
  destruct row as [[|v row]|]; simpl; intros [= <- <- <-];
    (split; [done|]); eauto.
Qed.

Lemma getData_next_new q s r g' s' :
  Motor.getData_next (Motor.RowsNew q) s = (Ok (r, g'), s') →
  extends s s' [EvCursor; EvExecute q PNone; EvFetchone]
  ∧ ((∃ dbc v row, r = Some (v :: row) ∧ g' = Motor.RowsOpen dbc)
     ∨ (r = None ∧ g' = Motor.RowsDone)).
Proof.
  simpl. unfold bind at 1, the_db_conn.
  destruct (db_conn (motor s)) as [c|]; [|done].
  unfold bind at 1.
  pose proof (call_extends EvCursor (λ d, cursor d c) s) as H1.
  destruct (call EvCursor _ s) as [[dbc|e] s1]; [|done]. simpl in H1.
  unfold bind at 1.
  pose proof (call_extends (EvExecute q PNone)
                (λ d, execute d dbc q PNone) s1) as H2.
  destruct (call (EvExecute q PNone) _ s1) as [[[]|e] s2]; [|done]. simpl in H2.
  intros Hnext.
  destruct (getData_next_open dbc s2 r g' s' Hnext) as [H3 Hshape].
  split.
  - apply (extends_trans s s2 s' [EvCursor; EvExecute q PNone] [EvFetchone]);
      [|done].
    apply (extends_trans _ _ _ _ _ H1 H2).
  - destruct Hshape as [(v & row & -> & ->)|[-> ->]]; [left|by right].
    by exists dbc, v, row.
Qed.

Lemma take_rows_open n dbc s rows g' s' :
  take_rows n (Motor.RowsOpen dbc) s = (Ok (rows, g'), s') →
  ∃ m, extends s s' (replicate m EvFetchone)
       ∧ (m ≤ n)%nat
       ∧ Forall (λ r, r ≠ []) rows
       ∧ ((g' = Motor.RowsDone ∧ m = S (length rows))
          ∨ (g' = Motor.RowsOpen dbc ∧ m = length rows ∧ m = n)).
Proof.
  revert s rows g' s'. induction n as [|n IH]; intros s rows g' s'.
  - intros [= <- <- <-]. exists 0. split; [apply extends_refl|].
    split; [done|]. split; [done|]. by right.
  - cbn [take_rows]. unfold bind at 1.
    destruct (Motor.getData_next (Motor.RowsOpen dbc) s) as [[[r g1]|e] s1] eqn:E;
      [|done].
    apply getData_next_open in E as [Hext [(v & row & -> & ->)|[-> ->]]]; simpl.
    + unfold bind at 1.
      destruct (take_rows n (Motor.RowsOpen dbc) s1) as [[[rest g2]|e] s2] eqn:E2;
        [|done].
      intros [= <- <- <-].
      destruct (IH _ _ _ _ E2) as (m & Hext2 & Hle & Hrows & Hend).
      exists (S m). split.
      { apply (extends_trans s s1 s2 [EvFetchone] (replicate m EvFetchone));
          done. }
      split; [lia|]. split; [by constructor|]. simpl.
      destruct Hend as [[-> ->]|(-> & -> & ->)]; [by left|by right].
    + intros [= <- <- <-]. exists 1. split; [done|]. split; [lia|].
      split; [done|]. by left.
Qed.

(** X12: a row sequence is lazy.  Asked for up to [n] rows, it executes
    its statement once, at the first request, and then fetches one row per
    request: as many fetches as rows handed out, plus one when the
    sequence ran out before [n] rows.  No row handed out is empty, and
    neither the motor nor the heap changes. *)
Theorem take_rows_lazy n q (cols : list name) s rows g' s' :
  take_rows (S n) (Motor.getData q cols) s = (Ok (rows, g'), s') →
  ∃ m, events_since s s'
       = [EvCursor; EvExecute q PNone] ++ replicate m EvFetchone
       ∧ (m ≤ S n)%nat
       ∧ Forall (λ r, r ≠ []) rows
       ∧ ((g' = Motor.RowsDone ∧ m = S (length rows))
          ∨ ((∃ dbc, g' = Motor.RowsOpen dbc) ∧ m = length rows ∧ m = S n))
       ∧ motor s' = motor s ∧ heap s' = heap s.
Proof.
  unfold Motor.getData. cbn [take_rows]. unfold bind at 1.
  destruct (Motor.getData_next (Motor.RowsNew q) s) as [[[r g1]|e] s1] eqn:E;
    [|done].
  apply getData_next_new in E as [Hext [(dbc & v & row & -> & ->)|[-> ->]]]; simpl.
  - unfold bind at 1.
    destruct (take_rows n (Motor.RowsOpen dbc) s1) as [[[rest g2]|e] s2] eqn:E2;
      [|done].
    intros [= <- <- <-].
    destruct (take_rows_open _ _ _ _ _ _ E2) as (m & Hext2 & Hle & Hrows & Hend).
    pose proof (extends_trans _ _ _ _ _ Hext Hext2) as (Hh & Hm & Ht).
    exists (S m). split; [by apply events_since_app|].
    split; [lia|]. split; [by constructor|]. split; [|done]. simpl.
    destruct Hend as [[-> ->]|(-> & -> & ->)]; [by left|right; eauto].
  - intros [= <- <- <-]. destruct Hext as (Hh & Hm & Ht).
    exists 1. split; [by apply events_since_app|]. split; [lia|].
    split; [done|]. split; [by left|done].
Qed.

End rows_facts.

(** ** More on the convertor's operations *)
Section convertor_more.
Context {W : Type}.
Implicit Types (s : Store W) (self : Convertor.t) (obj : addr).

Lemma add_unfold self obj s :
  Convertor.add self obj s
  = match Convertor.getData_in self (heap s) obj with
    | Raise e => (Raise e, s)
    | Ok data =>
        match Motor.getKey (Convertor.q_getKey (Convertor.queries self)) s with
        | (Raise e, s1) => (Raise e, s1)
        | (Ok key, s1) =>
            match Motor.add (Convertor.q_add (Convertor.queries self))
                    (<[Some "__key__" := key]> data) s1 with
            | (Raise e, s2) => (Raise e, s2)
            | (Ok _, s2) => setattr obj (Some "__key__") key s2
            end
        end
    end.
Proof.
  unfold Convertor.add, Convertor.getData, bind.
  destruct (Convertor.getData_in self (heap s) obj) as [data|e]; [|done].
  destruct (Motor.getKey _ s) as [[key|e] s1]; [|done].
  by destruct (Motor.add _ _ s1) as [[[]|e] s2].
Qed.

Lemma update_unfold self obj s :
  Convertor.update self obj s
  = match Convertor.getData_in self (heap s) obj with
    | Raise e => (Raise e, s)
    | Ok data =>
        match Convertor.values_of data (Convertor.columns self) with
        | Raise e => (Raise e, s)
        | Ok row =>
            match getattr (heap s) obj (Some "__key__") with
            | Raise e => (Raise e, s)
            | Ok key =>
                Motor.update (Convertor.q_update (Convertor.queries self)) row key s
            end
        end
    end.
Proof.
  unfold Convertor.update, Convertor.getData, Convertor.read_attr, lift, bind.
  destruct (Convertor.getData_in self (heap s) obj) as [data|e]; [|done].
  destruct (Convertor.values_of data _) as [row|e]; [|done].
  by destruct (getattr (heap s) obj _) as [key|e].
Qed.

Lemma delete_unfold self obj s :
  Convertor.delete self obj s
  = match getattr (heap s) obj (Some "__key__") with
    | Raise e => (Raise e, s)
    | Ok key => Motor.delete (Convertor.q_delete (Convertor.queries self)) key s
    end.
Proof.
  unfold Convertor.delete, Convertor.read_attr, bind.
  by destruct (getattr (heap s) obj _) as [key|e].
Qed.

Lemma values_of_missing (data : gmap name Value) (cols : list name) c :
  c ∈ cols → data !! c = None → Convertor.values_of data cols = Raise KeyError.
Proof.
  induction cols as [|c0 cols IH]; simpl; intros Hin Hc.
  - by apply elem_of_nil in Hin.
  - destruct (data !! c0) as [v|] eqn:E; [|done].
    apply elem_of_cons in Hin as [->|Hin]; [congruence|].
    by rewrite IH.
Qed.

Lemma values_of_length (data : gmap name Value) (cols : list name) row :
  Convertor.values_of data cols = Ok row → length row = length cols.
Proof.
  revert row. induction cols as [|c cols IH]; simpl; intros row.
  - by intros [= <-].
  - destruct (data !! c); [|done].
    destruct (Convertor.values_of data cols) as [vs|e]; [|done].
    intros [= <-]. simpl. by rewrite (IH vs).
Qed.

(** X13: [update(obj)] raises [KeyError] when the extracted row has no
    entry for one of the ordered columns, as happens for a plain attribute
    stored under a column of another name.  It does so before reading the
    key and before any call on the database. *)
Theorem update_missing_column self obj s (data : gmap name Value) (c : name) :
  Convertor.getData_in self (heap s) obj = Ok data →
  c ∈ Convertor.columns self →
  data !! c = None →
  Convertor.update self obj s = (Raise KeyError, s).
Proof.
  intros Hdata Hin Hc. rewrite update_unfold, Hdata.
  by rewrite (values_of_missing _ _ _ Hin Hc).
Qed.

(** X14: the key [add(obj)] allocates is the key the later operations on
    [obj] use.  After [add] has returned, [delete(obj)] issues its
    statement keyed by the value the sequencer query gave, [update(obj)]
    does the same once the row is extracted, and [delete] leaves the key
    on the object. *)
Theorem add_then_delete_targets_key self obj s s' :
  Convertor.add self obj s = (Ok (), s') →
  ∃ key,
    (Motor.getKey (Convertor.q_getKey (Convertor.queries self)) s).1 = Ok key
    ∧ getattr (heap s') obj (Some "__key__") = Ok key
    ∧ Convertor.delete self obj s'
      = Motor.delete (Convertor.q_delete (Convertor.queries self)) key s'
    ∧ heap (Convertor.delete self obj s').2 = heap s'
    ∧ (∀ data row,
         Convertor.getData_in self (heap s') obj = Ok data →
         Convertor.values_of data (Convertor.columns self) = Ok row →
         Convertor.update self obj s'
         = Motor.update (Convertor.q_update (Convertor.queries self)) row key s').
Proof.
  rewrite add_unfold.
  destruct (Convertor.getData_in self (heap s) obj) as [data|e] eqn:Hdata; [|done].
  destruct (getData_in_obj _ _ _ _ Hdata) as [o Ho].
  destruct (logs_getKey (Convertor.q_getKey (Convertor.queries self)) s)
    as (evs1 & (Hh1 & _) & _).
  destruct (Motor.getKey _ s) as [[key|e] s1]; [|done]. simpl in Hh1.
  destruct (logs_add (Convertor.q_add (Convertor.queries self))
              (<[Some "__key__" := key]> data) s1) as (evs2 & (Hh2 & _) & _).
  destruct (Motor.add _ _ s1) as [[[]|e] s2]; [|done]. simpl in Hh2.
  assert (Ho2 : heap s2 !! obj = Some o) by (by rewrite Hh2, Hh1).
  destruct (setattr_spec obj "__key__" key s2 o Ho2) as (R1 & _ & R3 & _).
  intros Hset. rewrite Hset in R3. cbn [snd] in R3.
  exists key. split; [done|]. split; [done|].
  split; [by rewrite delete_unfold, R3|].
  split.
  - rewrite delete_unfold, R3.
    apply (logs_frame _ _ _ (logs_delete _ _)).
  - intros data' row Hd Hr. by rewrite update_unfold, Hd, Hr, R3.
Qed.

(** X15: when the sequencer query yields no row, key allocation raises
    [TypeError], and so does [add(obj)], after the cursor, the query and
    the fetch, with no insert and with the heap as it was. *)
Theorem add_without_key_row self obj s (data : gmap name Value)
    (c dbc : nat) (w1 w2 w3 : W) :
  Convertor.getData_in self (heap s) obj = Ok data →
  db_conn (motor s) = Some c →
  cursor (db_module (motor s)) c (world s) = (Ok dbc, w1) →
  execute (db_module (motor s)) dbc
    (Convertor.q_getKey (Convertor.queries self)) PNone w1 = (Ok (), w2) →
  fetchone (db_module (motor s)) dbc w2 = (Ok None, w3) →
  Motor.getKey (Convertor.q_getKey (Convertor.queries self)) s
    = (Raise TypeError,
       mkStore w3 (motor s) (heap s)
         (trace s ++ [EvCursor;
                      EvExecute (Convertor.q_getKey (Convertor.queries self)) PNone;
                      EvFetchone]))
  ∧ Convertor.add self obj s
    = (Raise TypeError,
       mkStore w3 (motor s) (heap s)
         (trace s ++ [EvCursor;
                      EvExecute (Convertor.q_getKey (Convertor.queries self)) PNone;
                      EvFetchone])).
Proof.
  intros Hdata Hc Hcur Hex Hfetch.
  assert (E : Motor.getKey (Convertor.q_getKey (Convertor.queries self)) s
    = (Raise TypeError,
       mkStore w3 (motor s) (heap s)
         (trace s ++ [EvCursor;
                      EvExecute (Convertor.q_getKey (Convertor.queries self)) PNone;
                      EvFetchone]))).
  { unfold Motor.getKey, bind, the_db_conn, call, lift. rewrite Hc. simpl.
    rewrite Hcur. simpl. rewrite Hex. simpl. rewrite Hfetch. simpl.
    by rewrite <- !app_assoc. }
  split; [done|]. by rewrite add_unfold, Hdata, E.
Qed.

End convertor_more.

(** ** Placeholders of the generated statements *)

Lemma count_char_app (c : Ascii.ascii) (s1 s2 : string) :
  count_char c (s1 +:+ s2) = count_char c s1 + count_char c s2.
Proof.
  induction s1 as [|c' s1 IH]; simpl; [done|]. rewrite IH. lia.
Qed.

Lemma count_char_join (c : Ascii.ascii) (sep : string) (l : list string) :
  count_char c sep = 0 →
  count_char c (join sep l) = sum_list (count_char c <$> l).
Proof.
  intros Hsep. induction l as [|x l IH]; [done|].
  destruct l as [|y l].
  - simpl. lia.
  - change (join sep (x :: y :: l)) with (x +:+ sep +:+ join sep (y :: l)).
    rewrite !count_char_app, Hsep, IH. simpl. lia.
Qed.

Lemma sum_list_ones {A} (f : A → nat) (l : list A) :
  Forall (λ x, f x = 1) l → sum_list (f <$> l) = length l.
Proof.
  induction 1 as [|x l Hx _ IH]; [done|].
  change (sum_list (f <$> x :: l)) with (f x + sum_list (f <$> l)).
  by rewrite Hx, IH.
Qed.

Lemma count_char_quoted (n : name) :
  count_char percent (quoted n) = count_char percent (fmt n).
Proof.
  unfold quoted. rewrite !count_char_app.
  change (count_char percent dquote) with 0. lia.
Qed.

Lemma init_queries (cls0 : Persistence.t) (conv : Convertor.t) :
  Convertor.init cls0 = Ok conv →
  Convertor.q_update (Convertor.queries conv)
  = Convertor.update_query (Convertor.columns conv) (Persistence.relation cls0)
  ∧ Convertor.q_delete (Convertor.queries conv)
    = Convertor.delete_query (Persistence.relation cls0)
  ∧ Convertor.init_ascs ([], [])
      (filter (λ c, Column.is_many_to_many c = true)
         (odict.values (Persistence.columns cls0)))
    = Ok (Convertor.q_asc (Convertor.queries conv), Convertor.asc_cols conv).
Proof.
  unfold Convertor.init.
  destruct (Convertor.init_ascs _ _) as [[qs acs]|e]; [|done].
  by intros [= <-].
Qed.

(** X16: when neither the relation name nor a column name contains a
    percent sign, the update statement has as many percent signs, each the
    start of a positional placeholder, as [update(obj)] passes parameters:
    one per ordered column and one for the key.  The delete statement has
    one, for the one parameter [delete(obj)] passes. *)
Theorem update_placeholders_match (cls0 : Persistence.t) (conv : Convertor.t)
    (data : gmap name Value) (row : list Value) (key : Value) :
  Convertor.init cls0 = Ok conv →
  percent_free (Persistence.relation cls0) →
  Forall percent_free (Convertor.columns conv) →
  Convertor.values_of data (Convertor.columns conv) = Ok row →
  count_char percent (Convertor.q_update (Convertor.queries conv))
    = length (row ++ [key])
  ∧ count_char percent (Convertor.q_delete (Convertor.queries conv))
    = length [key].
Proof.
  intros (Hu & Hd & _)%init_queries Hrel Hcols Hrow.
  rewrite Hu, Hd. unfold Convertor.update_query, Convertor.delete_query.
  rewrite !count_char_app, !count_char_quoted, Hrel.
  rewrite count_char_join by done.
  rewrite length_app, (values_of_length _ _ _ Hrow). simpl.
  rewrite <- list_fmap_compose, sum_list_ones.
  - split; lia.
  - eapply Forall_impl; [exact Hcols|]. intros c Hc.
    unfold compose. cbv beta.
    rewrite count_char_app, count_char_quoted, Hc. done.
Qed.

(** ** Statements of an association *)

Lemma odict_keys_set_eq {K V} `{EqDecision K} (d : list (K * V)) k v :
  odict.keys (odict.set d k v)
  = if decide (k ∈ odict.keys d) then odict.keys d else odict.keys d ++ [k].
Proof.
  unfold odict.keys. induction d as [|[k0 v0] d IH].
  - cbn [odict.set fmap list_fmap].
    destruct (decide (k ∈ [])) as [?%elem_of_nil|]; done.
  - cbn [odict.set]. destruct (decide (k0 = k)) as [->|Hne].
    + rewrite !fmap_cons. cbn [fst]. rewrite decide_True; [done|left].
    + rewrite !fmap_cons, IH. cbn [fst].
      destruct (decide (k ∈ d.*1)) as [Hin|Hin].
      * rewrite decide_True; [done|by right].
      * rewrite decide_False; [done|].
        intros [?|?]%elem_of_cons; congruence.
Qed.

Lemma init_ascs_keys acc cols acc' :
  odict.keys acc.1 = odict.keys acc.2 →
  Convertor.init_ascs acc cols = Ok acc' →
  odict.keys acc'.1 = odict.keys acc'.2.
Proof.
  revert acc. induction cols as [|c cols IH]; simpl; intros acc Hk Hinit.
  - by injection Hinit as <-.
  - destruct (Convertor.init_asc acc c) as [acc1|e] eqn:Hstep; [|done].
    apply init_asc_Ok in Hstep as (a & _ & _ & ->).
    eapply IH; [|exact Hinit]. cbn [fst snd].
    rewrite !odict_keys_set_eq, Hk. by destruct (decide _).
Qed.

Section association_statements.
Context {W : Type}.
Implicit Types (s : Store W).

(** X17: for a many-to-many descriptor of the class whose association no
    other many-to-many descriptor shares, the pair operations of the
    compiled convertor work on the descriptor's link relation:
    [addPair] and [delPair] hand all pairs to one batch execution of the
    insert and of the delete statement built from the descriptor's link
    relation and column pair, and the first request to [getPair] reads with
    the select statement built from them. *)
Theorem pair_statements_of_descriptor (cls0 : Persistence.t) (conv : Convertor.t)
    (c : Column.t) (a : Association) (pairs : list (list Value)) s :
  Convertor.init cls0 = Ok conv →
  c ∈ odict.values (Persistence.columns cls0) →
  Column.is_many_to_many c = true →
  Column.association c = Some a →
  (∀ c' a', c' ∈ odict.values (Persistence.columns cls0) →
            Column.is_many_to_many c' = true →
            Column.association c' = Some a' →
            asc_id a' = asc_id a → c' = c) →
  Convertor.addPair conv a pairs s
    = Motor.executeMany
        (Convertor.addPair_query (Column.link c) (Column.col c, Column.vcol c))
        pairs s
  ∧ Convertor.delPair conv a pairs s
    = Motor.executeMany
        (Convertor.delPair_query (Column.link c) (Column.col c, Column.vcol c))
        pairs s
  ∧ Convertor.getPair_next conv (Convertor.getPair conv a) s
    = Convertor.getPair_row
        (Motor.getData
           (Convertor.getPair_query (Column.link c) (Column.col c, Column.vcol c))
           [Column.col c; Column.vcol c]) s.
Proof.
  intros (_ & _ & Hinit)%init_queries Hc Hmtm Ha Huniq.
  destruct (init_ascs_Ok (λ _, False) _ _ _ Hinit) as (_ & Hfrom & Hall);
    [by intros i q [=]|by intros ? ? []|].
  assert (Hin : c ∈ filter (λ c, Column.is_many_to_many c = true)
                      (odict.values (Persistence.columns cls0)))
    by (by apply list_elem_of_filter).
  destruct (Hall c a (or_intror Hin) Ha) as [q Hq]. simpl in Hq.
  destruct (Hfrom _ _ Hq) as (c' & a' & [[]|Hc'] & Ha' & Hid & Hcols & ->).
  apply list_elem_of_filter in Hc' as [Hmtm' Hc'].
  rewrite (Huniq c' a' Hc' Hmtm' Ha' Hid) in Hcols. simpl in Hcols.
  rewrite (Huniq c' a' Hc' Hmtm' Ha' Hid) in Hq.
  unfold Convertor.addPair, Convertor.delPair, Convertor.getPair,
    Convertor.getPair_next. rewrite Hq, Hcols. done.
Qed.

(** X18: the pair operations know the associations of the class's
    many-to-many descriptors only.  For any other association, that of a
    one-to-one or one-to-many descriptor included, [addPair], [delPair] and
    the first request to [getPair] raise [KeyError] and make no call on the
    database. *)
Theorem pair_operations_unknown_association (cls0 : Persistence.t)
    (conv : Convertor.t) (asc : Association) (pairs : list (list Value)) s :
  Convertor.init cls0 = Ok conv →
  (∀ c a, c ∈ odict.values (Persistence.columns cls0) →
          Column.is_many_to_many c = true →
          Column.association c = Some a → asc_id a ≠ asc_id asc) →
  Convertor.addPair conv asc pairs s = (Raise KeyError, s)
  ∧ Convertor.delPair conv asc pairs s = (Raise KeyError, s)
  ∧ Convertor.getPair_next conv (Convertor.getPair conv asc) s
    = (Raise KeyError, s).
Proof.
  intros (_ & _ & Hinit)%init_queries Hother.
  destruct (init_ascs_Ok (λ _, False) _ _ _ Hinit) as (_ & Hfrom & _);
    [by intros i q [=]|by intros ? ? []|].
  assert (Hkeys : odict.keys (Convertor.q_asc (Convertor.queries conv))
                  = odict.keys (Convertor.asc_cols conv)).
  { exact (init_ascs_keys ([], []) _ (_, _) eq_refl Hinit). }
  assert (Hq : odict.get (Convertor.q_asc (Convertor.queries conv)) (asc_id asc)
               = None).
  { destruct (odict.get _ (asc_id asc)) as [q|] eqn:Hq; [|done].
    destruct (Hfrom _ _ Hq) as (c & a & [[]|Hc] & Ha & Hid & _).
    apply list_elem_of_filter in Hc as [Hmtm Hc].
    by destruct (Hother c a Hc Hmtm Ha). }
  assert (Hcols : odict.get (Convertor.asc_cols conv) (asc_id asc) = None).
  { apply odict_get_None. rewrite <- Hkeys. by apply odict_get_None. }
  unfold Convertor.addPair, Convertor.delPair, Convertor.getPair,
    Convertor.getPair_next. by rewrite Hq, Hcols.
Qed.

End association_statements.

(** ** Loading an object *)

Lemma assign_other (cols : list name) (data : list Value) (d : gmap name Value) c :
  c ∉ cols → assign cols data d !! c = d !! c.
Proof.
  revert data d. induction cols as [|c0 cols IH]; intros data d Hc; [done|].
  rewrite not_elem_of_cons in Hc. destruct Hc as [Hne Hc].
  destruct data as [|v data]; [done|]. simpl.
  rewrite IH by done. by rewrite lookup_insert_ne.
Qed.

Lemma values_of_assign (cols : list name) (data : list Value) (d : gmap name Value) :
  NoDup cols → length data = length cols →
  Convertor.values_of (assign cols data d) cols = Ok data.
Proof.
  revert data d. induction cols as [|c cols IH]; intros data d Hnd Hlen.
  - by destruct data.
  - destruct data as [|v data]; [done|].
    apply NoDup_cons in Hnd as [Hc Hnd]. injection Hlen as Hlen.
    assert (Hstep : ∀ d', d' !! c = Some v →
      Convertor.values_of d' cols = Ok data →
      Convertor.values_of d' (c :: cols) = Ok (v :: data)).
    { intros d' H1 H2. simpl. by rewrite H1, H2. }
    apply Hstep.
    + simpl. rewrite assign_other by done. by rewrite lookup_insert_eq.
    + simpl. by apply IH.
Qed.

Section loading_facts.
Context {W : Type}.
Variable construct : Persistence.t → M W addr.
Implicit Types (s : Store W) (self : Convertor.t) (obj : addr).

Lemma set_row_Ok obj (cols : list name) (data : list Value) s (o : Obj) :
  heap s !! obj = Some o →
  Forall is_Some cols →
  (length cols ≤ length data)%nat →
  Convertor.set_row obj cols data s
  = (Ok (),
     mkStore (world s) (motor s)
       (<[obj := mkObj (obj_class o) (assign cols data (obj_dict o))]> (heap s))
       (trace s)).
Proof.
  revert data s o. induction cols as [|c cols IH]; intros data s o Ho Hcols Hlen.
  - simpl. unfold ret. f_equal. destruct s as [w m h t]. simpl in *. f_equal.
    destruct o. by rewrite insert_id.
  - destruct data as [|v data]; [simpl in Hlen; lia|].
    apply Forall_cons in Hcols as [[n ->] Hcols]. simpl in Hlen.
    cbn [Convertor.set_row Convertor.set_attribute]. unfold bind, setattr.
    rewrite Ho.
    rewrite (IH data _ (mkObj (obj_class o) (<[Some n := v]> (obj_dict o))));
      [|simpl; by rewrite lookup_insert_eq|done|simpl; lia].
    simpl. by rewrite insert_insert_eq.
Qed.

Lemma set_row_short obj (cols : list name) (data : list Value) s (o : Obj) :
  heap s !! obj = Some o →
  Forall is_Some cols →
  (length data < length cols)%nat →
  (Convertor.set_row obj cols data s).1 = Raise IndexError.
Proof.
  revert data s o. induction cols as [|c cols IH]; intros data s o Ho Hcols Hlen.
  - simpl in Hlen. lia.
  - destruct data as [|v data]; [done|].
    apply Forall_cons in Hcols as [[n ->] Hcols]. simpl in Hlen.
    cbn [Convertor.set_row Convertor.set_attribute]. unfold bind, setattr.
    rewrite Ho.
    apply (IH data _ (mkObj (obj_class o) (<[Some n := v]> (obj_dict o))));
      [simpl; by rewrite lookup_insert_eq|done|lia].
Qed.

(** X19: loading and extracting are inverse on a class without one-to-one
    descriptors whose column names are distinct strings other than
    [__key__].  The object [getObjects] makes from a row holds the first
    value of the row as its key, and the row [getData] extracts from it
    gives back, column by column, the values that followed. *)
Theorem load_then_extract self (k : Value) (vs : list Value) s s1 (a : addr) (o : Obj) :
  construct (Convertor.cls self) s = (Ok a, s1) →
  heap s1 !! a = Some o →
  Convertor.oto_ascs self = [] →
  NoDup (Convertor.columns self) →
  Forall is_Some (Convertor.columns self) →
  Some "__key__" ∉ Convertor.columns self →
  length vs = length (Convertor.columns self) →
  ∃ s', Convertor.load construct self (k :: vs) s = (Ok a, s')
        ∧ getattr (heap s') a (Some "__key__") = Ok k
        ∧ (∃ data, Convertor.getData_in self (heap s') a = Ok data
                   ∧ Convertor.values_of data (Convertor.columns self) = Ok vs)
        ∧ (∀ b, b ≠ a → heap s' !! b = heap s1 !! b)
        ∧ world s' = world s1 ∧ motor s' = motor s1 ∧ trace s' = trace s1.
Proof.
  intros Hnew Ho Hoto Hnd Hsome Hkey Hlen.
  unfold Convertor.load, bind. rewrite Hnew.
  rewrite (set_row_Ok a _ _ s1 o Ho);
    [|by constructor|simpl; lia].
  eexists. split; [reflexivity|]. simpl.
  split; [|split; [|split; [|done]]].
  - unfold getattr. rewrite lookup_insert_eq. simpl.
    rewrite assign_other by done. by rewrite lookup_insert_eq.
  - eexists. unfold Convertor.getData_in. rewrite lookup_insert_eq, Hoto.
    split; [reflexivity|]. simpl. by apply values_of_assign.
  - intros b Hb. by rewrite lookup_insert_ne.
Qed.

(** X20: a row with fewer values than the key and the ordered columns
    need makes the loading of the object raise [IndexError], after the
    object has been made. *)
Theorem load_short_row self (data : list Value) s s1 (a : addr) (o : Obj) :
  construct (Convertor.cls self) s = (Ok a, s1) →
  heap s1 !! a = Some o →
  Forall is_Some (Convertor.columns self) →
  (length data ≤ length (Convertor.columns self))%nat →
  (Convertor.load construct self data s).1 = Raise IndexError.
Proof.
  intros Hnew Ho Hsome Hlen.
  unfold Convertor.load, bind. rewrite Hnew.
  pose proof (set_row_short a (Some "__key__" :: Convertor.columns self)
                data s1 o Ho) as H.
  destruct (Convertor.set_row a _ data s1) as [[[]|e] s2]; simpl in *.
  - discriminate H; [by constructor|lia].
  - assert (He : Raise (A:=unit) e = Raise IndexError)
      by (apply H; [by constructor|lia]).
    by injection He as ->.
Qed.

End loading_facts.

(** ** The further properties on the sample classes and databases *)

Lemma new_merges_defaults_witness :
  Persistence.new "Special" [Sample.Mixin; Sample.PlainOrder]
    (Persistence.mkData None None None None
       (Some {[ Some "no" := VInt 1; Some "colour" := VStr "blue" ]}))
    None None = Ok Sample.Special
  ∧ Persistence.is_persistence Sample.Mixin = false
  ∧ Persistence.defaults Sample.Special !! Some "colour" = Some (VStr "red")
  ∧ Persistence.defaults Sample.Special !! Some "no" = Some VNone.
Proof.
  assert (H : Persistence.new "Special" [Sample.Mixin; Sample.PlainOrder]
    (Persistence.mkData None None None None
       (Some {[ Some "no" := VInt 1; Some "colour" := VStr "blue" ]}))
    None None = Ok Sample.Special) by (vm_compute; reflexivity).
  destruct (new_merges_defaults _ _ _ _ _ _ H) as [_ T].
  split; [exact H|]. split; [reflexivity|]. split.
  - apply (T [] Sample.Mixin [Sample.PlainOrder] (Some "colour") (VStr "red"));
      [reflexivity|reflexivity|vm_compute; reflexivity|].
    intros b' Hb' _. apply list_elem_of_singleton in Hb'. rewrite Hb'.
    vm_compute. reflexivity.
  - apply (T [Sample.Mixin] Sample.PlainOrder [] (Some "no") VNone);
      [reflexivity|reflexivity|vm_compute; reflexivity|].
    intros b' Hb'. by apply elem_of_nil in Hb'.
Defined.

Lemma addColumn_twice_witness :
  Persistence.addColumn Sample.PlainOrder (Some "total") None None None None None true
    = (Ok (), Sample.OrderWithTotal)
  ∧ (Persistence.addColumn Sample.OrderWithTotal (Some "total") (Some "sum")
       None None None None false).1
    = Raise (ColumnMappingError "column is defined").
Proof.
  assert (H : Persistence.addColumn Sample.PlainOrder (Some "total") None None
                None None None true = (Ok (), Sample.OrderWithTotal))
    by (vm_compute; reflexivity).
  split; [exact H|].
  apply (addColumn_twice _ _ _ _ _ _ _ _ _ (Some "sum") None None None None false H).
Defined.

Lemma addColumn_keeps_columns_wf_witness :
  columns_wf (Persistence.columns Sample.PlainOrder)
  ∧ columns_wf
      (Persistence.columns
         (Persistence.addColumn Sample.PlainOrder (Some "total") None None None
            None None true).2).
Proof.
  assert (H : columns_wf (Persistence.columns Sample.PlainOrder)).
  { split.
    - apply (bool_decide_unpack _). vm_compute. exact I.
    - intros k c Hin. vm_compute in Hin.
      repeat (apply elem_of_cons in Hin as [[= -> ->]|Hin]; [reflexivity|]).
      by apply elem_of_nil in Hin. }
  split; [exact H|].
  apply (addColumn_keeps_columns_wf Sample.PlainOrder (Some "total") None None
           None None None true H).
Defined.

Lemma addColumn_shadows_inherited_witness :
  NoDup (odict.keys (Persistence.columns Sample.B))
  ∧ Persistence.addColumn Sample.B (Some "id") (Some "b_id") None None None None true
    = (Ok (), Sample.B_with_id)
  ∧ Column.col <$> odict.get (Persistence.getColumns Sample.B) (Some "id")
    = Some (Some "a_id")
  ∧ odict.get (Persistence.getColumns Sample.B_with_id) (Some "id")
    = Some (requested (Some "id") (Some "b_id") None None None None true).
Proof.
  assert (Hnd : NoDup (odict.keys (Persistence.columns Sample.B)))
    by (apply (bool_decide_unpack _); vm_compute; exact I).
  assert (H : Persistence.addColumn Sample.B (Some "id") (Some "b_id") None None
                None None true = (Ok (), Sample.B_with_id))
    by (vm_compute; reflexivity).
  destruct (addColumn_shadows_inherited _ _ _ _ _ _ _ _ _ Hnd H) as [T _].
  split; [exact Hnd|]. split; [exact H|]. split; [vm_compute; reflexivity|exact T].
Defined.

Lemma addColumn_many_to_many_unbound_witness :
  Persistence.addColumn Sample.PlainOrder (Some "employees") (Some "order")
    (Some "Employee") (Some "employee_orders") (Some "employee") None true
    = (Ok (), Sample.OrderWithEmployees)
  ∧ Convertor.init Sample.OrderWithEmployees = Raise AttributeError
  ∧ is_Ok (Convertor.init Sample.OrderWithEmployees) = false.
Proof.
  assert (H : Persistence.addColumn Sample.PlainOrder (Some "employees")
                (Some "order") (Some "Employee") (Some "employee_orders")
                (Some "employee") None true = (Ok (), Sample.OrderWithEmployees))
    by (vm_compute; reflexivity).
  split; [exact H|]. split; [vm_compute; reflexivity|].
  exact (addColumn_many_to_many_unbound _ _ _ _ _ _ _ _ _ H).
Defined.

Lemma getColumns_without_configured_bases_witness :
  NoDup (odict.keys (Persistence.columns Sample.PlainOrder))
  ∧ Persistence.bases Sample.PlainOrder = [Sample.PersistentObject]
  ∧ odict.get (Persistence.getColumns Sample.PlainOrder) (Some "no")
    = odict.get (Persistence.columns Sample.PlainOrder) (Some "no")
  ∧ odict.get (Persistence.getColumns Sample.PlainOrder) (Some "total") = None.
Proof.
  assert (Hnd : NoDup (odict.keys (Persistence.columns Sample.PlainOrder)))
    by (apply (bool_decide_unpack _); vm_compute; exact I).
  assert (Hbs : ∀ b, b ∈ Persistence.bases Sample.PlainOrder →
                     Persistence.is_persistence b = false).
  { intros b Hb. change (Persistence.bases Sample.PlainOrder)
      with [Sample.PersistentObject] in Hb.
    apply list_elem_of_singleton in Hb. by rewrite Hb. }
  destruct (getColumns_without_configured_bases Sample.PlainOrder Hnd Hbs)
    as [T _].
  split; [exact Hnd|]. split; [reflexivity|]. split; [apply T|].
  rewrite T. vm_compute. reflexivity.
Defined.

Lemma getColumns_last_base_wins_witness :
  Persistence.bases Sample.D = [Sample.B] ++ Sample.C :: []
  ∧ Column.col <$> odict.get (Persistence.getColumns Sample.B) (Some "x")
    = Some (Some "b_x")
  ∧ Column.col <$> odict.get (Persistence.getColumns Sample.C) (Some "x")
    = Some (Some "a_x")
  ∧ odict.get (Persistence.getColumns Sample.D) (Some "x")
    = odict.get (Persistence.getColumns Sample.C) (Some "x").
Proof.
  split; [reflexivity|]. split; [vm_compute; reflexivity|].
  split; [vm_compute; reflexivity|].
  apply (getColumns_last_base_wins Sample.D Sample.C [Sample.B] [] (Some "x"));
    [reflexivity|reflexivity| | |].
  - change (odict.keys (Persistence.columns Sample.D)) with [Some "y"].
    intros Hin. apply list_elem_of_singleton in Hin. discriminate Hin.
  - apply odict_get_is_Some. vm_compute. eauto.
  - intros b' Hb'. by apply elem_of_nil in Hb'.
Defined.

Lemma take_rows_lazy_witness :
  take_rows 3 (Motor.getData "select nextval('order_seq')" []) Sample.connected
    = (Ok ([[VInt 100]], Motor.RowsDone),
       (take_rows 3 (Motor.getData "select nextval('order_seq')" [])
          Sample.connected).2)
  ∧ events_since Sample.connected
      (take_rows 3 (Motor.getData "select nextval('order_seq')" [])
         Sample.connected).2
    = [EvCursor; EvExecute "select nextval('order_seq')" PNone;
       EvFetchone; EvFetchone].
Proof.
  assert (H : take_rows 3 (Motor.getData "select nextval('order_seq')" [])
                Sample.connected
    = (Ok ([[VInt 100]], Motor.RowsDone),
       (take_rows 3 (Motor.getData "select nextval('order_seq')" [])
          Sample.connected).2)) by (vm_compute; reflexivity).
  destruct (take_rows_lazy _ _ _ _ _ _ _ H) as (m & Hev & _ & _ & Hend & _).
  split; [exact H|]. rewrite Hev.
  destruct Hend as [[_ ->]|[[dbc Hg] _]]; [reflexivity|discriminate Hg].
Defined.

Lemma update_missing_column_witness :
  Convertor.getData_in Sample.article_convertor (heap Sample.connected) 2
    = Ok {[ Some "name" := VStr "pen" ]}
  ∧ Some "name_col" ∈ Convertor.columns Sample.article_convertor
  ∧ Convertor.update Sample.article_convertor 2 Sample.connected
    = (Raise KeyError, Sample.connected).
Proof.
  assert (H1 : Convertor.getData_in Sample.article_convertor (heap Sample.connected) 2
               = Ok {[ Some "name" := VStr "pen" ]}) by (vm_compute; reflexivity).
  assert (H2 : Some "name_col" ∈ Convertor.columns Sample.article_convertor)
    by (vm_compute; left).
  split; [exact H1|]. split; [exact H2|].
  apply (update_missing_column _ _ _ _ _ H1 H2). vm_compute. reflexivity.
Defined.

Lemma add_then_delete_targets_key_witness :
  Convertor.add Sample.order_convertor 1 Sample.connected
    = (Ok (), (Convertor.add Sample.order_convertor 1 Sample.connected).2)
  ∧ getattr (heap (Convertor.add Sample.order_convertor 1 Sample.connected).2)
      1 (Some "__key__") = Ok (VInt 100)
  ∧ Convertor.delete Sample.order_convertor 1
      (Convertor.add Sample.order_convertor 1 Sample.connected).2
    = Motor.delete (Convertor.q_delete (Convertor.queries Sample.order_convertor))
        (VInt 100) (Convertor.add Sample.order_convertor 1 Sample.connected).2.
Proof.
  assert (H : Convertor.add Sample.order_convertor 1 Sample.connected
    = (Ok (), (Convertor.add Sample.order_convertor 1 Sample.connected).2))
    by (vm_compute; reflexivity).
  destruct (add_then_delete_targets_key _ _ _ _ H) as (key & Hk & Hkey & Hdel & _).
  assert (E : key = VInt 100).
  { vm_compute in Hk. by injection Hk as <-. }
  rewrite E in Hkey, Hdel.
  split; [exact H|]. split; [exact Hkey|exact Hdel].
Defined.

Lemma add_without_key_row_witness :
  Convertor.getData_in Sample.order_convertor (heap Sample.silent) 1
    = Ok Sample.order_row
  ∧ (Convertor.add Sample.order_convertor 1 Sample.silent).1 = Raise TypeError
  ∧ heap (Convertor.add Sample.order_convertor 1 Sample.silent).2
    = heap Sample.silent.
Proof.
  assert (H : Convertor.getData_in Sample.order_convertor (heap Sample.silent) 1
              = Ok Sample.order_row) by (vm_compute; reflexivity).
  destruct (add_without_key_row Sample.order_convertor 1 Sample.silent
              Sample.order_row 1 7 Sample.healthy Sample.healthy Sample.healthy
              H eq_refl eq_refl eq_refl eq_refl) as [_ T].
  split; [exact H|]. by rewrite T.
Defined.

Lemma update_placeholders_match_witness :
  Convertor.init Sample.PlainOrder = Ok Sample.order_convertor
  ∧ percent_free (Persistence.relation Sample.PlainOrder)
  ∧ Forall percent_free (Convertor.columns Sample.order_convertor)
  ∧ Convertor.values_of Sample.order_row (Convertor.columns Sample.order_convertor)
    = Ok [VInt 5; VBool false]
  ∧ count_char percent (Convertor.q_update (Convertor.queries Sample.order_convertor))
    = 3.
Proof.
  assert (H1 : Convertor.init Sample.PlainOrder = Ok Sample.order_convertor)
    by reflexivity.
  assert (H2 : percent_free (Persistence.relation Sample.PlainOrder))
    by (vm_compute; reflexivity).
  assert (H3 : Forall percent_free (Convertor.columns Sample.order_convertor)).
  { change (Convertor.columns Sample.order_convertor)
      with [Some "no"; Some "finished"].
    repeat constructor. }
  assert (H4 : Convertor.values_of Sample.order_row
                 (Convertor.columns Sample.order_convertor)
               = Ok [VInt 5; VBool false]) by (vm_compute; reflexivity).
  destruct (update_placeholders_match _ _ _ _ VNone H1 H2 H3 H4) as [T _].
  split; [exact H1|]. split; [exact H2|]. split; [exact H3|].
  split; [exact H4|exact T].
Defined.

Lemma pair_statements_of_descriptor_witness :
  Convertor.init Sample.Employee = Ok Sample.employee_convertor
  ∧ Sample.orders ∈ odict.values (Persistence.columns Sample.Employee)
  ∧ Column.is_many_to_many Sample.orders = true
  ∧ Convertor.addPair Sample.employee_convertor
      (mkAssociation 31 (Some "EOrder")) [[VInt 1; VInt 10]] Sample.connected
    = Motor.executeMany
        (Convertor.addPair_query (Some "employee_orders")
           (Some "employee", Some "order"))
        [[VInt 1; VInt 10]] Sample.connected.
Proof.
  assert (H1 : Convertor.init Sample.Employee = Ok Sample.employee_convertor)
    by reflexivity.
  assert (H2 : Sample.orders ∈ odict.values (Persistence.columns Sample.Employee))
    by (vm_compute; right; left).
  assert (H3 : Column.is_many_to_many Sample.orders = true) by reflexivity.
  split; [exact H1|]. split; [exact H2|]. split; [exact H3|].
  apply (pair_statements_of_descriptor Sample.Employee Sample.employee_convertor
           Sample.orders (mkAssociation 31 (Some "EOrder")) _ _ H1 H2 H3 eq_refl).
  intros c' a' Hc' Hmtm' _ _. vm_compute in Hc'.
  apply elem_of_cons in Hc' as [->|Hc']; [discriminate Hmtm'|].
  apply elem_of_cons in Hc' as [->|Hc']; [reflexivity|].
  by apply elem_of_nil in Hc'.
Defined.

Lemma pair_operations_unknown_association_witness :
  Convertor.init Sample.Department = Ok Sample.department_convertor
  ∧ Column.association Sample.boss = Some (mkAssociation 11 (Some "Boss"))
  ∧ Convertor.addPair Sample.department_convertor
      (mkAssociation 11 (Some "Boss")) [[VInt 3; VInt 4]] Sample.connected
    = (Raise KeyError, Sample.connected).
Proof.
  assert (H1 : Convertor.init Sample.Department = Ok Sample.department_convertor)
    by reflexivity.
  split; [exact H1|]. split; [reflexivity|].
  apply (pair_operations_unknown_association Sample.Department
           Sample.department_convertor (mkAssociation 11 (Some "Boss"))
           [[VInt 3; VInt 4]] Sample.connected H1).
  intros c a Hc Hmtm _. vm_compute in Hc.
  repeat (apply elem_of_cons in Hc as [->|Hc]; [discriminate Hmtm|]).
  by apply elem_of_nil in Hc.
Defined.

Lemma load_then_extract_witness :
  Sample.construct (Convertor.cls Sample.order_convertor) Sample.connected
    = (Ok 9, (Sample.construct Sample.PlainOrder Sample.connected).2)
  ∧ Convertor.oto_ascs Sample.order_convertor = []
  ∧ (Convertor.load Sample.construct Sample.order_convertor
       [VInt 7; VInt 5; VBool true] Sample.connected).1 = Ok 9
  ∧ ∃ s', Convertor.load Sample.construct Sample.order_convertor
            [VInt 7; VInt 5; VBool true] Sample.connected = (Ok 9, s')
          ∧ getattr (heap s') 9 (Some "__key__") = Ok (VInt 7)
          ∧ ∃ data, Convertor.getData_in Sample.order_convertor (heap s') 9 = Ok data
                    ∧ Convertor.values_of data
                        (Convertor.columns Sample.order_convertor)
                      = Ok [VInt 5; VBool true].
Proof.
  assert (H1 : Sample.construct (Convertor.cls Sample.order_convertor)
                 Sample.connected
    = (Ok 9, (Sample.construct Sample.PlainOrder Sample.connected).2))
    by reflexivity.
  assert (H2 : heap (Sample.construct Sample.PlainOrder Sample.connected).2 !! 9
               = Some (mkObj (Sample.class_attrs Sample.PlainOrder) ∅))
    by (vm_compute; reflexivity).
  assert (H3 : NoDup (Convertor.columns Sample.order_convertor))
    by (apply (bool_decide_unpack _); vm_compute; exact I).
  assert (H4 : Forall is_Some (Convertor.columns Sample.order_convertor)).
  { change (Convertor.columns Sample.order_convertor)
      with [Some "no"; Some "finished"].
    repeat constructor; eauto. }
  assert (H5 : Some "__key__" ∉ Convertor.columns Sample.order_convertor).
  { change (Convertor.columns Sample.order_convertor)
      with [Some "no"; Some "finished"].
    intros Hin. repeat (apply elem_of_cons in Hin as [Hin|Hin]; [discriminate Hin|]).
    by apply elem_of_nil in Hin. }
  destruct (load_then_extract Sample.construct Sample.order_convertor (VInt 7)
              [VInt 5; VBool true] Sample.connected _ 9 _ H1 H2 eq_refl H3 H4 H5
              eq_refl) as (s' & T1 & T2 & T3 & _).
  split; [exact H1|]. split; [reflexivity|]. split; [by rewrite T1|].
  exists s'. split; [exact T1|]. split; [exact T2|exact T3].
Defined.

Lemma load_short_row_witness :
  Sample.construct (Convertor.cls Sample.order_convertor) Sample.connected
    = (Ok 9, (Sample.construct Sample.PlainOrder Sample.connected).2)
  ∧ (Convertor.load Sample.construct Sample.order_convertor
       [VInt 7; VInt 5] Sample.connected).1 = Raise IndexError.
Proof.
  assert (H1 : Sample.construct (Convertor.cls Sample.order_convertor)
                 Sample.connected
    = (Ok 9, (Sample.construct Sample.PlainOrder Sample.connected).2))
    by reflexivity.
  assert (H2 : heap (Sample.construct Sample.PlainOrder Sample.connected).2 !! 9
               = Some (mkObj (Sample.class_attrs Sample.PlainOrder) ∅))
    by (vm_compute; reflexivity).
  assert (H4 : Forall is_Some (Convertor.columns Sample.order_convertor)).
  { change (Convertor.columns Sample.order_convertor)
      with [Some "no"; Some "finished"].
    repeat constructor; eauto. }
  split; [exact H1|].
  apply (load_short_row Sample.construct Sample.order_convertor [VInt 7; VInt 5]
           Sample.connected _ 9 _ H1 H2 H4).
  vm_compute. lia.
Defined.
